(** * Windowed candle collection: a shallow embedding of [DataCollector]

    The development follows [src/infrastructure/data_collector.py]:

    - [Calendar]: [datetime] values, [strptime] and [strftime] for the two
      formats the program uses, and [calculate_candles_between];
    - [Py]: the effects of the program, as a state-and-exception monad over
      the transport session and the printed lines;
    - [Collector]: [fetch_candles], [get_candles] and
      [collect_large_candle_data], parametrised by the transport and by the
      date parser of [dateutil], which are not part of the program;
    - [Sample]: a concrete parser, collector and sessions, on which the
      operations are run.

    Strings are sequences of 8-bit characters; integers are [Z]. *)

From Stdlib Require Import ZArith Lia Bool List String Ascii Sorted.
Import ListNotations.
Local Open Scope string_scope.
Local Open Scope Z_scope.

(** ** Exceptions and results *)

(** The value a raised [InvalidFunctionArguments] carries in [arguments]. *)
Inductive ArgVal : Type :=
| ArgStr (s : string)
| ArgInt (n : Z)
| ArgDates (start : string) (end_ : option string).

(** One candle of a response.  The program reads only ["time"]. *)
Record Candle : Type := mkCandle {
  time : string;
  complete : bool;
  volume : Z
}.

(** What [session.get] returns: [res.ok], [res.text], and the value of
    [res.json()], a JSON object whose ["candles"] entry may be absent. *)
Record Response : Type := mkResponse {
  ok : bool;
  text : string;
  json_candles : option (list Candle)
}.

(** The exceptions of [infrastructure/exceptions.py] with the values they
    carry, and the built-in exceptions the program can meet. *)
Inductive exn : Type :=
| InvalidFunctionArguments (function_name : string) (arguments : ArgVal)
| RequestError (request_obj : Response)
| NullCandles (candles_data : Response)
| ValueError
| TypeError
| IndexError
| OtherError (name : string).

Inductive pyresult (A : Type) : Type :=
| Ok (a : A)
| Raise (e : exn).
Arguments Ok {A} a.
Arguments Raise {A} e.

(** ** Dates and the granularity calendar *)

Module Calendar.

(** A [datetime.datetime] at second resolution.  [tzinfo] is the UTC offset
    in seconds of an aware value and [None] for a naive one. *)
Record datetime : Type := mkDatetime {
  year : Z;
  month : Z;
  day : Z;
  hour : Z;
  minute : Z;
  second : Z;
  tzinfo : option Z
}.

Definition is_leap (y : Z) : bool :=
  (y mod 4 =? 0) && (negb (y mod 100 =? 0) || (y mod 400 =? 0)).

Definition days_in_month (y m : Z) : Z :=
  if m =? 2 then (if is_leap y then 29 else 28)
  else if (m =? 4) || (m =? 6) || (m =? 9) || (m =? 11) then 30
  else 31.

(** Days in the year before the first day of month [m]. *)
Definition days_before_month (y m : Z) : Z :=
  match m with
  | 1 => 0 | 2 => 31 | 3 => 59 | 4 => 90 | 5 => 120 | 6 => 151
  | 7 => 181 | 8 => 212 | 9 => 243 | 10 => 273 | 11 => 304 | _ => 334
  end + (if (2 <? m) && is_leap y then 1 else 0).

(** Days before January 1st of year [y]. *)
Definition days_before_year (y : Z) : Z :=
  let p := y - 1 in p * 365 + p / 4 - p / 100 + p / 400.

(** [date.toordinal()]: January 1st of year 1 is day 1. *)
Definition toordinal (d : datetime) : Z :=
  days_before_year (year d) + days_before_month (year d) (month d) + day d.

(** The checks of the [datetime] constructor; a value that fails them is
    never built ([ValueError]). *)
Definition valid_fields (y m d h mi s : Z) : bool :=
  (1 <=? y) && (y <=? 9999) && (1 <=? m) && (m <=? 12) &&
  (1 <=? d) && (d <=? days_in_month y m) &&
  (0 <=? h) && (h <=? 23) && (0 <=? mi) && (mi <=? 59) &&
  (0 <=? s) && (s <=? 59).

Definition valid_datetime (d : datetime) : bool :=
  valid_fields (year d) (month d) (day d) (hour d) (minute d) (second d).

(** *** Comparison and difference *)

Definition fields (d : datetime) : list Z :=
  [year d; month d; day d; hour d; minute d; second d].

(** Lexicographic comparison of the field tuples, as naive values compare. *)
Fixpoint lex_compare (a b : list Z) : comparison :=
  match a, b with
  | x :: a', y :: b' =>
      match x ?= y with
      | Eq => lex_compare a' b'
      | c => c
      end
  | [], [] => Eq
  | [], _ :: _ => Lt
  | _ :: _, [] => Gt
  end.

(** Seconds from midnight of day 0 to the wall-clock reading of [d]. *)
Definition wall_seconds (d : datetime) : Z :=
  toordinal d * 86400 + hour d * 3600 + minute d * 60 + second d.

(** The instant of [d] in UTC; a naive value is read as UTC. *)
Definition instant (d : datetime) : Z :=
  wall_seconds d - match tzinfo d with Some off => off | None => 0 end.

(** [a >= b] on datetimes: field order for two naive values, instants for
    two aware ones, [TypeError] for a naive and an aware one. *)
Definition dt_ge (a b : datetime) : pyresult bool :=
  match tzinfo a, tzinfo b with
  | None, None =>
      Ok (match lex_compare (fields a) (fields b) with Lt => false | _ => true end)
  | Some _, Some _ => Ok (instant b <=? instant a)
  | _, _ => Raise TypeError
  end.

(** [(a - b).total_seconds()] for two naive values: the timedelta holds
    whole days and seconds. *)
Definition total_seconds (a b : datetime) : Z :=
  (toordinal a - toordinal b) * 86400
  + ((hour a * 3600 + minute a * 60 + second a)
     - (hour b * 3600 + minute b * 60 + second b)).

(** *** [strptime] *)

Definition is_digit (c : ascii) : bool :=
  let n := nat_of_ascii c in (48 <=? n)%nat && (n <=? 57)%nat.

Definition in_range (lo hi c : ascii) : bool :=
  (nat_of_ascii lo <=? nat_of_ascii c)%nat && (nat_of_ascii c <=? nat_of_ascii hi)%nat.

(** The value [int] gives a digit; the space of [" 5"] counts for nothing. *)
Definition digit_val (c : ascii) : Z :=
  if is_digit c then Z.of_nat (nat_of_ascii c) - 48 else 0.

Definition eqc (a b : ascii) : bool := Ascii.eqb a b.

(** The directive groups of [_strptime.TimeRE], each as its two-character
    alternatives and its one-character alternative:
    [%m] is [1[0-2]|0[1-9]|[1-9]], [%d] is [3[0-1]|[1-2]\d|0[1-9]|[1-9]| [1-9]],
    [%H] is [2[0-3]|[0-1]\d|\d], [%M] is [[0-5]\d|\d],
    [%S] is [6[0-1]|[0-5]\d|\d]. *)
Definition m_two (a b : ascii) : bool :=
  (eqc a "1" && in_range "0" "2" b) || (eqc a "0" && in_range "1" "9" b).
Definition m_one (a : ascii) : bool := in_range "1" "9" a.

Definition d_two (a b : ascii) : bool :=
  (eqc a "3" && in_range "0" "1" b) || (in_range "1" "2" a && is_digit b)
  || (eqc a "0" && in_range "1" "9" b) || (eqc a " " && in_range "1" "9" b).
Definition d_one (a : ascii) : bool := in_range "1" "9" a.

Definition H_two (a b : ascii) : bool :=
  (eqc a "2" && in_range "0" "3" b) || (in_range "0" "1" a && is_digit b).
Definition H_one (a : ascii) : bool := is_digit a.

Definition M_two (a b : ascii) : bool := in_range "0" "5" a && is_digit b.
Definition M_one (a : ascii) : bool := is_digit a.

Definition S_two (a b : ascii) : bool :=
  (eqc a "6" && in_range "0" "1" b) || (in_range "0" "5" a && is_digit b).
Definition S_one (a : ascii) : bool := is_digit a.

(** A group is matched at the head of the input.  The alternatives are tried
    in order, the two-character ones first; the second character of such a
    match is a digit, and every group is followed by a literal that is not
    one (or by the end of the input), so a match that took two characters is
    never reconsidered. *)
Definition group (two : ascii -> ascii -> bool) (one : ascii -> bool)
    (s : string) : option (Z * string) :=
  match s with
  | String a (String b r) =>
      if two a b then Some (digit_val a * 10 + digit_val b, r)
      else if one a then Some (digit_val a, String b r)
      else None
  | String a EmptyString => if one a then Some (digit_val a, EmptyString) else None
  | EmptyString => None
  end.

(** [%Y] is [\d\d\d\d]. *)
Definition group_Y (s : string) : option (Z * string) :=
  match s with
  | String a (String b (String c (String d r))) =>
      if is_digit a && is_digit b && is_digit c && is_digit d
      then Some (((digit_val a * 10 + digit_val b) * 10 + digit_val c) * 10 + digit_val d, r)
      else None
  | _ => None
  end.

(** A literal of the format.  The pattern is compiled with [IGNORECASE]. *)
Definition lower (c : ascii) : ascii :=
  if in_range "A" "Z" c then ascii_of_nat (nat_of_ascii c + 32) else c.

Definition literal (c : ascii) (s : string) : option string :=
  match s with
  | String a r => if eqc (lower a) (lower c) then Some r else None
  | EmptyString => None
  end.

Definition build (y m d h mi s : Z) : option datetime :=
  if valid_fields y m d h mi s then Some (mkDatetime y m d h mi s None) else None.

(** The two formats of the program. *)
Inductive date_format : Type :=
| fmt_date       (* "%Y-%m-%d" *)
| fmt_datetime.  (* "%Y-%m-%dT%H:%M:%SZ" *)

Definition bindo {A B} (o : option A) (f : A -> option B) : option B :=
  match o with Some a => f a | None => None end.

Notation "'let?' x ':=' o 'in' k" := (bindo o (fun x => k))
  (at level 10, x pattern, o at level 200, k at level 200).

Definition match_date (str : string) : option (Z * Z * Z * string) :=
  let? (y, r) := group_Y str in
  let? r := literal "-" r in
  let? (m, r) := group m_two m_one r in
  let? r := literal "-" r in
  let? (d, r) := group d_two d_one r in
  Some (y, m, d, r).

(** [datetime.strptime(str, format)]; [None] stands for [ValueError], which
    is what every failure on a string raises: no match, unconverted data, or
    fields the constructor refuses. *)
Definition strptime (str : string) (f : date_format) : option datetime :=
  let? (y, m, d, r) := match_date str in
  match f with
  | fmt_date =>
      match r with
      | EmptyString => build y m d 0 0 0
      | _ => None
      end
  | fmt_datetime =>
      let? r := literal "T" r in
      let? (h, r) := group H_two H_one r in
      let? r := literal ":" r in
      let? (mi, r) := group M_two M_one r in
      let? r := literal ":" r in
      let? (s, r) := group S_two S_one r in
      let? r := literal "Z" r in
      match r with
      | EmptyString => build y m d h mi s
      | _ => None
      end
  end.

(** *** [strftime] with ["%Y-%m-%dT%H:%M:%SZ"] *)

Definition digit_char (n : Z) : ascii := ascii_of_nat (Z.to_nat (n mod 10) + 48).

Definition pad2 (n : Z) (k : string) : string :=
  String (digit_char (n / 10)) (String (digit_char n) k).

Definition pad4 (n : Z) (k : string) : string := pad2 (n / 100) (pad2 n k).

(** [%Y] as the C library writes it: the digits of the year without leading
    zeros, so four digits from the year 1000 on and fewer before. *)
Definition year_digits (y : Z) (k : string) : string :=
  if y <? 10 then String (digit_char y) k
  else if y <? 100 then pad2 y k
  else if y <? 1000 then String (digit_char (y / 100)) (pad2 y k)
  else pad4 y k.

(** The fields are written as they are; the offset of an aware value is not
    consulted, the ["Z"] is a literal of the format. *)
Definition strftime (d : datetime) : string :=
  year_digits (year d) (String "-" (pad2 (month d) (String "-" (pad2 (day d)
    (String "T" (pad2 (hour d) (String ":" (pad2 (minute d)
      (String ":" (pad2 (second d) "Z"))))))))))%char.

(** [d.replace(tzinfo=tz)] *)
Definition with_tzinfo (d : datetime) (tz : option Z) : datetime :=
  mkDatetime (year d) (month d) (day d) (hour d) (minute d) (second d) tz.

(** On the values of each field the two-character alternative matches. *)
Definition two_on (two : ascii -> ascii -> bool) (lo hi : Z) (n : Z) : bool :=
  negb ((lo <=? n) && (n <=? hi)) || two (digit_char (n / 10)) (digit_char n).

(** The integers from 0 up to [n], excluded. *)
Definition below (n : nat) : list Z := map Z.of_nat (seq 0 n).

(** *** [calculate_candles_between] *)

(** ["T" in from_date] *)
Fixpoint contains_char (c : ascii) (s : string) : bool :=
  match s with
  | EmptyString => false
  | String a r => eqc a c || contains_char c r
  end.

(** The [match granularity] statement: minutes per candle. *)
Definition delta_minutes (granularity : string) : option Z :=
  if String.eqb granularity "M1" then Some 1
  else if String.eqb granularity "M5" then Some 5
  else if String.eqb granularity "M30" then Some 30
  else if String.eqb granularity "H1" then Some 60
  else if String.eqb granularity "H2" then Some 120
  else if String.eqb granularity "H4" then Some 240
  else if String.eqb granularity "D" then Some 1440
  else if String.eqb granularity "W" then Some 10080
  else None.

Definition inferred_format (from_date : string) : date_format :=
  if contains_char "T" from_date then fmt_datetime else fmt_date.

(** [int((dt2 - dt1).total_seconds() / 60)] truncates toward zero; the
    quotient of a whole number of seconds below 2^53 by 60 is exact enough
    in double precision for the truncation to be that of the integers. *)
Definition calculate_candles_between (from_date to_date granularity : string)
    : pyresult Z :=
  let date_format := inferred_format from_date in
  match strptime from_date date_format with
  | None => Raise ValueError
  | Some dt1 =>
      match strptime to_date date_format with
      | None => Raise ValueError
      | Some dt2 =>
          match dt_ge dt1 dt2 with
          | Raise e => Raise e
          | Ok true => Raise ValueError
          | Ok false =>
              match delta_minutes granularity with
              | None => Raise ValueError
              | Some delta =>
                  let total_minutes := Z.quot (total_seconds dt2 dt1) 60 in
                  Ok (total_minutes / delta)
              end
          end
      end
  end.

(** The duration of one candle of each granularity, in minutes: so many
    minutes for an [M], hours for an [H], a day for [D] and a week for [W]. *)
Definition candle_minutes : list (string * Z) :=
  [ ("M1", 1); ("M5", 5); ("M30", 30); ("H1", 60); ("H2", 2 * 60);
    ("H4", 4 * 60); ("D", 24 * 60); ("W", 7 * 24 * 60) ].

(** The granularities [calculate_candles_between] knows. *)
Definition calendar_granularities : list string :=
  ["M1"; "M5"; "M30"; "H1"; "H2"; "H4"; "D"; "W"].

(** What a [comparison] says about two integers. *)
Definition agrees (c : comparison) (x y : Z) : Prop :=
  match c with Lt => x < y | Eq => x = y | Gt => y < x end.

End Calendar.

Import Calendar.

(** ** Effects: the session, and what is printed *)

(** The [params] dictionary of a request.  [p_count] and [p_to] are the
    optional keys ["count"] and ["to"]; the value under ["to"] may be
    [None]. *)
Record Params : Type := mkParams {
  p_granularity : string;
  p_price : string;
  p_from : string;
  p_count : option Z;
  p_to : option (option string)
}.

Record Request : Type := mkRequest {
  request_url : string;
  params : Params
}.

(** The arguments of one call of [fetch_candles]. *)
Record FetchCall : Type := mkFetchCall {
  a_pair_name : string;
  a_start : string;
  a_end : option string;
  a_granularity : string;
  a_count : Z;
  a_price : string;
  a_use_count : bool
}.

(** The lines the program prints. *)
Inductive Line : Type :=
| InvalidArgumentsLine (e : exn)      (* "Invalid arguments: ..." *)
| RequestFailedLine (e : exn)         (* "Request failed: ..." *)
| NoCandleDataLine (e : exn)          (* "No candle data returned: ..." *)
| ValueErrorLine                      (* "Value error at function ..." *)
| ProgressLine (pair : string) (progress : Z).

Definition is_failure_line (l : Line) : bool :=
  match l with
  | InvalidArgumentsLine _ | RequestFailedLine _ | NoCandleDataLine _ => true
  | _ => false
  end.

Module Py.
Section Monad.

Variable T : Type.

(** The state a run acts on: the session, and, as ghost traces, the
    requests sent through it, the calls of [fetch_candles] and the printed
    lines, each in order. *)
Record World : Type := mkWorld {
  session : T;
  sent : list Request;
  calls : list FetchCall;
  printed : list Line
}.

Definition M (A : Type) : Type := World -> pyresult A * World.

Definition ret {A} (a : A) : M A := fun w => (Ok a, w).

Definition raise {A} (e : exn) : M A := fun w => (Raise e, w).

Definition bind {A B} (c : M A) (k : A -> M B) : M B :=
  fun w =>
    match c w with
    | (Ok a, w') => k a w'
    | (Raise e, w') => (Raise e, w')
    end.

Definition lift {A} (r : pyresult A) : M A := fun w => (r, w).

Definition print (l : Line) : M unit :=
  fun w => (Ok tt, mkWorld (session w) (sent w) (calls w) (printed w ++ [l])%list).

Definition called (c : FetchCall) : M unit :=
  fun w => (Ok tt, mkWorld (session w) (sent w) (calls w ++ [c])%list (printed w)).

End Monad.

Arguments mkWorld {T}.
Arguments session {T}.
Arguments sent {T}.
Arguments calls {T}.
Arguments printed {T}.
Arguments ret {T A}.
Arguments raise {T A}.
Arguments bind {T A B}.
Arguments lift {T A}.
Arguments print {T}.
Arguments called {T}.

End Py.

Import Py.

Notation "x <- c ;; k" := (bind c (fun x => k))
  (at level 61, c at next level, right associativity).
Notation "c ;; k" := (bind c (fun _ => k))
  (at level 61, right associativity).

(** ** The collector *)

Module Collector.

Definition CANDLE_COUNT : Z := 4000.

Definition INCREMENTS : list (string * Z) :=
  [ ("M5", 5 * CANDLE_COUNT);
    ("M1", CANDLE_COUNT);
    ("M30", 30 * CANDLE_COUNT);
    ("M15", 15 * CANDLE_COUNT);
    ("H1", 60 * CANDLE_COUNT);
    ("H4", 60 * 4 * CANDLE_COUNT);
    ("D", 60 * 24 * CANDLE_COUNT) ].

Definition granularity_list : list string := map fst INCREMENTS.

Definition price_list : list string := ["MBA"; "B"; "A"; "M"].

(** [x in l] for a list of strings. *)
Definition mem (x : string) (l : list string) : bool :=
  existsb (String.eqb x) l.

(** The attributes of a [DataCollector] the operations read.
    [instruments] is [None] when the account has no tradeable instrument. *)
Record DataCollector : Type := mkDataCollector {
  OANDA_URL : string;
  instruments : option (list string)
}.

(** [pair not in self.instruments]; the test on [None] is a [TypeError]. *)
Definition not_in_instruments (self : DataCollector) (pair : string)
    : pyresult bool :=
  match instruments self with
  | Some l => Ok (negb (mem pair l))
  | None => Raise TypeError
  end.

Definition count_in_range (count : Z) : bool :=
  (1 <=? count) && (count <? CANDLE_COUNT + 1).

(** [candles.extend(r)]; [r] is [None] when the window failed. *)
Definition extend (candles : list Candle) (r : option (list Candle))
    : pyresult (list Candle) :=
  match r with
  | Some l => Ok (candles ++ l)%list
  | None => Raise TypeError
  end.

(** [candles[-1]] *)
Definition last_candle (candles : list Candle) : pyresult Candle :=
  match rev candles with
  | c :: _ => Ok c
  | [] => Raise IndexError
  end.

(** The exceptions [get_candles] answers by [None], and the line it prints
    for each. *)
Definition handled (e : exn) : bool :=
  match e with
  | InvalidFunctionArguments _ _ | RequestError _ | NullCandles _ => true
  | _ => false
  end.

Definition line_of (e : exn) : Line :=
  match e with
  | InvalidFunctionArguments _ _ => InvalidArgumentsLine e
  | RequestError _ => RequestFailedLine e
  | _ => NoCandleDataLine e
  end.

(** The world after one more printed line. *)
Definition logged {T} (w : World T) (l : Line) : World T :=
  mkWorld (session w) (sent w) (calls w) (printed w ++ [l])%list.

Section WithEnvironment.

(** The session's state and [session.get]; a call may raise instead of
    returning a response. *)
Variable T : Type.
Variable session_get : T -> Request -> pyresult Response * T.

(** [dateutil.parser.parse] on a string. *)
Variable parser_parse : string -> pyresult datetime.

Definition get (req : Request) : M T Response :=
  fun w =>
    let '(r, s') := session_get (session w) req in
    (r, mkWorld s' (sent w ++ [req])%list (calls w) (printed w)).

(** The [try] block of [fetch_candles]: both dates are parsed and written
    back in the full format; only a [TypeError] is turned into
    [InvalidFunctionArguments].  When the end date fails, [start] has
    already been rebound to its normal form. *)
Definition normalise_dates (fn : string) (start : string) (end_ : option string)
    : pyresult (string * option string) :=
  match parser_parse start with
  | Raise TypeError => Raise (InvalidFunctionArguments fn (ArgDates start end_))
  | Raise e => Raise e
  | Ok ds =>
      let start' := strftime ds in
      match end_ with
      | None => Ok (start', None)
      | Some e =>
          match parser_parse e with
          | Raise TypeError =>
              Raise (InvalidFunctionArguments fn (ArgDates start' end_))
          | Raise x => Raise x
          | Ok de => Ok (start', Some (strftime de))
          end
      end
  end.

(** The [params] dictionary: ["count"] when [use_count] holds and there is
    no end date, ["to"] otherwise. *)
Definition build_params (granularity price start : string)
    (end_ : option string) (count : Z) (use_count : bool) : Params :=
  match use_count, end_ with
  | true, None => mkParams granularity price start (Some count) None
  | _, _ => mkParams granularity price start None (Some end_)
  end.

(** [fetch_candles].  Its first step records the call on the ghost trace;
    the rest follows the body of the method. *)
Definition fetch_candles (self : DataCollector) (pair_name start : string)
    (end_ : option string) (granularity : string) (count : Z)
    (price : string) (use_count : bool) : M T (list Candle) :=
  called (mkFetchCall pair_name start end_ granularity count price use_count) ;;
  unknown <- lift (not_in_instruments self pair_name) ;;
  if unknown : bool then
    raise (InvalidFunctionArguments "fetch_candles" (ArgStr pair_name))
  else if negb (mem granularity granularity_list) then
    raise (InvalidFunctionArguments "fetch_candles" (ArgStr granularity))
  else
    dates <- lift (normalise_dates "fetch_candles" start end_) ;;
    let '(start, end_) := dates in
    if negb (mem price price_list) then
      raise (InvalidFunctionArguments "fetch_candles" (ArgStr price))
    else if negb (count_in_range count) then
      raise (InvalidFunctionArguments "fetch_candles" (ArgInt count))
    else
      let request_url := OANDA_URL self ++ "/instruments/" ++ pair_name ++ "/candles" in
      let params := build_params granularity price start end_ count use_count in
      res <- get (mkRequest request_url params) ;;
      if negb (ok res) then raise (RequestError res)
      else
        match json_candles res with
        | None => raise (NullCandles res)
        | Some candles => ret candles
        end.

(** The world once the call is recorded, nothing else done. *)
Definition entered (w : World T) (c : FetchCall) : World T :=
  mkWorld (session w) (sent w) (calls w ++ [c])%list (printed w).

(** The world once the request [req] is sent and the session is [s']. *)
Definition requested (w : World T) (c : FetchCall) (req : Request) (s' : T)
    : World T :=
  mkWorld s' (sent w ++ [req])%list (calls w ++ [c])%list (printed w).

(** The request of a call whose dates have the normal forms [start'] and
    [end']. *)
Definition the_request (self : DataCollector) (pair_name granularity price : string)
    (start' : string) (end' : option string) (count : Z) (use_count : bool)
    : Request :=
  mkRequest (OANDA_URL self ++ "/instruments/" ++ pair_name ++ "/candles")
    (build_params granularity price start' end' count use_count).

(** What [fetch_candles] makes of the answer of the session. *)
Definition answer (r : pyresult Response) : pyresult (list Candle) :=
  match r with
  | Raise e => Raise e
  | Ok res =>
      if negb (ok res) then Raise (RequestError res)
      else match json_candles res with
           | None => Raise (NullCandles res)
           | Some candles => Ok candles
           end
  end.

(** The parameters pass every check; [start'] and [end'] are the dates in
    their normal form. *)
Record validated (self : DataCollector) (pair_name start : string)
    (end_ : option string) (granularity : string) (count : Z) (price : string)
    (start' : string) (end' : option string) : Prop := {
  v_known : exists known, instruments self = Some known /\ In pair_name known;
  v_granularity : In granularity granularity_list;
  v_dates : normalise_dates "fetch_candles" start end_ = Ok (start', end');
  v_price : In price price_list;
  v_count : 1 <= count <= CANDLE_COUNT
}.

(** The subroutine of [collect_large_candle_data]: one window.  The three
    exceptions of the program are printed and answered by [None]; any other
    exception passes through. *)
Definition get_candles (self : DataCollector) (pair granularity price : string)
    (p_count : Z) (start_date : datetime) : M T (option (list Candle)) :=
  fun w =>
    match fetch_candles self pair (strftime start_date) None granularity
            p_count price true w with
    | (Ok candles, w') => (Ok (Some candles), w')
    | (Raise (InvalidFunctionArguments f a as e), w') =>
        (print (InvalidArgumentsLine e) ;; ret None) w'
    | (Raise (RequestError r as e), w') =>
        (print (RequestFailedLine e) ;; ret None) w'
    | (Raise (NullCandles r as e), w') =>
        (print (NoCandleDataLine e) ;; ret None) w'
    | (Raise e, w') => (Raise e, w')
    end.

(** *** The order of a series *)

(** The instant the time of a candle denotes, when the parser reads it. *)
Definition stamp (c : Candle) : option Z :=
  match parser_parse (time c) with
  | Ok d => Some (instant d)
  | Raise _ => None
  end.

(** The times of [L] are read by the parser and their instants do not
    decrease, the first being at or after [lo]. *)
Fixpoint ascending_from (lo : Z) (L : list Candle) : bool :=
  match L with
  | [] => true
  | c :: L' =>
      match stamp c with
      | Some z => (lo <=? z) && ascending_from z L'
      | None => false
      end
  end.

Definition ascending (L : list Candle) : bool :=
  match L with
  | [] => true
  | c :: _ =>
      match stamp c with
      | Some z => ascending_from z L
      | None => false
      end
  end.

(** The times of [L] that the parser reads are in UTC: the instant is the
    reading of the fields. *)
Definition utc_times (L : list Candle) : bool :=
  forallb (fun c =>
             match parser_parse (time c) with
             | Ok d => instant d =? wall_seconds d
             | Raise _ => true
             end) L.

(** The session answers a request with candles in ascending order that
    start at or after the date of the request. *)
Definition chronological : Prop :=
  forall s req res s' L da,
    session_get s req = (Ok res, s') ->
    ok res = true ->
    json_candles res = Some L ->
    parser_parse (p_from (params req)) = Ok da ->
    ascending_from (instant da) L = true.

(** The candles of the session are timed in UTC. *)
Definition timed_in_utc : Prop :=
  forall s req res s' L,
    session_get s req = (Ok res, s') ->
    ok res = true ->
    json_candles res = Some L ->
    utc_times L = true.

(** The parser reads back the normal form of a date it has given, as the
    same fields in UTC. *)
Definition reads_normal_form : Prop :=
  forall s d, parser_parse s = Ok d ->
    exists d', parser_parse (strftime d) = Ok d' /\
               wall_seconds d' = wall_seconds d /\
               instant d' = wall_seconds d.

(** The variables the [while] loop updates. *)
Record LoopState : Type := mkLoopState {
  count : Z;
  from_date : datetime;
  candles : list Candle;
  progress : Z
}.

(** The state after an iteration that took the window [L] and read the
    date [d] off the last candle. *)
Definition advanced (st : LoopState) (L : list Candle) (d : datetime) : LoopState :=
  mkLoopState (count st - Z.min (count st) CANDLE_COUNT) d (candles st ++ L)%list
    (progress st + Z.of_nat (List.length (candles st ++ L)%list)).

(** The call an iteration makes. *)
Definition window_call (pair granularity price : string) (st : LoopState)
    : FetchCall :=
  mkFetchCall pair (strftime (from_date st)) None granularity
    (Z.min (count st) CANDLE_COUNT) price true.

(** Iterations the loop can need: each takes [CANDLE_COUNT] off the count,
    or all of it. *)
Definition iterations (count : Z) : nat :=
  Z.to_nat ((count + CANDLE_COUNT - 1) / CANDLE_COUNT).

(** What holds of the state each time the loop is at its head. *)
Record loop_invariant (st : LoopState) : Prop := {
  inv_read : exists s, parser_parse s = Ok (from_date st);
  inv_ascending : ascending (candles st) = true;
  inv_utc : utc_times (candles st) = true;
  inv_cursor : candles st = [] \/
               exists c, last_candle (candles st) = Ok c /\
                         stamp c = Some (wall_seconds (from_date st))
}.

Inductive Flow : Type :=
| Continue (st : LoopState)
| Break (st : LoopState).

Section Loop.

Variable self : DataCollector.
Variables pair granularity price : string.
Variable to_date : datetime.

(** The body of the [while] loop, once. *)
Definition loop_body (st : LoopState) : M T Flow :=
  print (ProgressLine pair (progress st)) ;;
  let current_count := Z.min (count st) CANDLE_COUNT in
  r <- get_candles self pair granularity price current_count (from_date st) ;;
  candles <- lift (extend (candles st) r) ;;
  let count := count st - current_count in
  c <- lift (last_candle candles) ;;
  from_date <- lift (parser_parse (time c)) ;;
  let progress := progress st + Z.of_nat (List.length candles) in
  stop <- lift (dt_ge from_date to_date) ;;
  let st' := mkLoopState count from_date candles progress in
  if stop : bool then ret (Break st') else ret (Continue st').

(** [while count > 0: ...] run for at most [fuel] iterations; [None] when
    the loop has not left by then. *)
Fixpoint while_loop (fuel : nat) (st : LoopState) (w : World T)
    : option (pyresult LoopState * World T) :=
  if count st >? 0 then
    match fuel with
    | O => None
    | S fuel' =>
        match loop_body st w with
        | (Ok (Continue st'), w') => while_loop fuel' st' w'
        | (Ok (Break st'), w') => Some (Ok st', w')
        | (Raise e, w') => Some (Raise e, w')
        end
    end
  else Some (Ok st, w).

End Loop.

(** The checks at the head of [collect_large_candle_data]; they give the
    two parsed dates. *)
Definition collect_checks (self : DataCollector)
    (pair granularity date_from date_to price : string)
    : pyresult (datetime * datetime) :=
  match not_in_instruments self pair with
  | Raise e => Raise e
  | Ok true =>
      Raise (InvalidFunctionArguments "collect_large_candle_data" (ArgStr pair))
  | Ok false =>
      if negb (mem granularity granularity_list) then
        Raise (InvalidFunctionArguments "collect_large_candle_data" (ArgStr granularity))
      else
        match parser_parse date_from with
        | Raise TypeError =>
            Raise (InvalidFunctionArguments "collect_large_candle_data"
                     (ArgDates date_from (Some date_to)))
        | Raise e => Raise e
        | Ok from_date =>
            match parser_parse date_to with
            | Raise TypeError =>
                Raise (InvalidFunctionArguments "collect_large_candle_data"
                         (ArgDates date_from (Some date_to)))
            | Raise e => Raise e
            | Ok to_date =>
                if negb (mem price price_list) then
                  Raise (InvalidFunctionArguments "collect_large_candle_data"
                           (ArgStr price))
                else Ok (from_date, to_date)
            end
        end
  end.

(** What follows once [count] is known: one window, or the loop. *)
Definition collect_windows (fuel : nat) (self : DataCollector)
    (pair granularity price : string) (from_date to_date : datetime)
    (count : Z) (w : World T)
    : option (pyresult (option (list Candle)) * World T) :=
  if count <=? CANDLE_COUNT then
    Some ((r <- get_candles self pair granularity price count from_date ;;
           candles <- lift (extend [] r) ;;
           ret (Some candles)) w)
  else
    match while_loop self pair granularity price to_date fuel
            (mkLoopState count from_date [] 0) w with
    | None => None
    | Some (Ok st, w') => Some (Ok (Some (candles st)), w')
    | Some (Raise e, w') => Some (Raise e, w')
    end.

(** [collect_large_candle_data], with the loop given [fuel] iterations.
    The result is [Ok None] when the count cannot be computed. *)
Definition collect_large_candle_data (fuel : nat) (self : DataCollector)
    (pair granularity date_from date_to price : string) (w : World T)
    : option (pyresult (option (list Candle)) * World T) :=
  match collect_checks self pair granularity date_from date_to price with
  | Raise e => Some (Raise e, w)
  | Ok (from_date, to_date) =>
      match calculate_candles_between (strftime from_date) (strftime to_date)
              granularity with
      | Raise ValueError => Some ((print ValueErrorLine ;; ret None) w)
      | Raise e => Some (Raise e, w)
      | Ok n =>
          collect_windows fuel self pair granularity price from_date to_date
            (n + 1) w
      end
  end.

End WithEnvironment.

Arguments get {T}.
Arguments chronological {T}.
Arguments timed_in_utc {T}.
Arguments entered {T}.
Arguments requested {T}.
Arguments fetch_candles {T}.
Arguments get_candles {T}.
Arguments loop_body {T}.
Arguments while_loop {T}.
Arguments collect_windows {T}.
Arguments collect_large_candle_data {T}.

End Collector.

Import Collector.


(** ** A concrete environment *)

Module Sample.

(** A date parser in the manner of [dateutil] on the two formats of the
    program: an aware UTC value for the full format, a naive one for a date
    alone, and, as [dateutil] does for a string it does not recognise,
    [ParserError], which is a [ValueError]. *)
Definition iso_parse (s : string) : pyresult datetime :=
  match strptime s fmt_datetime with
  | Some d =>
      Ok (mkDatetime (year d) (month d) (day d) (hour d) (minute d) (second d)
            (Some 0))
  | None =>
      match strptime s fmt_date with
      | Some d => Ok d
      | None => Raise ValueError
      end
  end.

Definition collector : DataCollector :=
  mkDataCollector "https://api-fxpractice.oanda.com/v3"
    (Some ["EUR_USD"; "GBP_USD"]).

Definition refusal : Response := mkResponse false "Bad Request" None.

(** A session that answers from a script, one response per request, and
    refuses every request once the script is used up. *)
Definition scripted (script : list Response) (req : Request)
    : pyresult Response * list Response :=
  match script with
  | r :: rest => (Ok r, rest)
  | [] => (Ok refusal, [])
  end.

(** The world before anything is done. *)
Definition fresh {T} (s : T) : World T := mkWorld s [] [] [].

Definition candle_at (t : string) : Candle := mkCandle t true 1.

(** [iso_parse] on the years that are written on four digits. *)
Definition recent_parse (s : string) : pyresult datetime :=
  match iso_parse s with
  | Ok d => if 1000 <=? year d then Ok d else Raise ValueError
  | Raise e => Raise e
  end.

(** The characters of [s] before and from position [n]. *)
Fixpoint split_at (n : nat) (s : string) : string * string :=
  match n, s with
  | S n', String a r => let '(p, q) := split_at n' r in (String a p, q)
  | _, _ => (EmptyString, s)
  end.

(** A numeric UTC offset, ["+HH:MM"] or ["-HH:MM"], in seconds. *)
Definition read_offset (s : string) : option Z :=
  match s with
  | String sign (String a (String b (String ":" (String c (String e EmptyString))))) =>
      if is_digit a && is_digit b && is_digit c && is_digit e then
        let off := (digit_val a * 10 + digit_val b) * 3600
                   + (digit_val c * 10 + digit_val e) * 60 in
        if eqc sign "+" then Some off
        else if eqc sign "-" then Some (- off)
        else None
      else None
  | _ => None
  end.

(** [recent_parse], and besides, as [dateutil] reads them, timestamps that
    end with a numeric UTC offset: an aware value with that offset. *)
Definition zone_parse (s : string) : pyresult datetime :=
  match recent_parse s with
  | Ok d => Ok d
  | Raise _ =>
      let '(stamp, zone) := split_at 19 s in
      match strptime (stamp ++ "Z") fmt_datetime, read_offset zone with
      | Some d, Some off =>
          if 1000 <=? year d then Ok (with_tzinfo d (Some off))
          else Raise ValueError
      | _, _ => Raise ValueError
      end
  end.

(** A session without state whose answer depends on the date of the
    request: from the first of January, two candles, the second timed at
    UTC-5; from the first of March, one candle an hour later; nothing
    otherwise. *)
Definition seam (s : unit) (req : Request) : pyresult Response * unit :=
  (Ok (mkResponse true ""
         (Some (if String.eqb (p_from (params req)) "2020-01-01T00:00:00Z"
                then [candle_at "2020-01-01T00:00:00Z";
                      candle_at "2020-03-01T00:00:00-05:00"]
                else if String.eqb (p_from (params req)) "2020-03-01T00:00:00Z"
                then [candle_at "2020-03-01T01:00:00Z"]
                else []))), tt).

(** A session without state that answers every request with one candle, at
    the date of the request. *)
Definition echo (s : unit) (req : Request) : pyresult Response * unit :=
  (Ok (mkResponse true "" (Some [candle_at (p_from (params req))])), tt).

End Sample.

(** ** Tactics *)

(** The twelve cases of a month. *)
Ltac month_cases m :=
  let H := fresh in
  assert (H : m = 1 \/ m = 2 \/ m = 3 \/ m = 4 \/ m = 5 \/ m = 6 \/ m = 7 \/
              m = 8 \/ m = 9 \/ m = 10 \/ m = 11 \/ m = 12) by lia;
  repeat (destruct H as [H | H]); subst m.


(** ** Bootstrapping: the instrument list *)

Module Bootstrap.

(** One entry of the list the account endpoint returns.  The program reads
    only ["name"]. *)
Record Instrument : Type := mkInstrument {
  name : string;
  displayName : string
}.

(** The value of [response.json()] for the account endpoint: a JSON object
    whose ["instruments"] entry may be absent. *)
Record InstrumentsBody : Type := mkInstrumentsBody {
  json_instruments : option (list Instrument)
}.

(** How a step of the construction ends: with a value, with the
    [RequestError] the program raises around a failure of [requests] (it
    carries that failure), or with an exception that passes through. *)
Inductive outcome (A : Type) : Type :=
| Built (a : A)
| RequestErrorFrom (cause : exn)
| Raised (e : exn).
Arguments Built {A} a.
Arguments RequestErrorFrom {A} cause.
Arguments Raised {A} e.

(** [get_instruments_names], on the list [self.tradeable_instruments]. *)
Definition get_instruments_names (tradeable_instruments : list Instrument)
    : option (list string) :=
  if (0 <? List.length tradeable_instruments)%nat
  then Some (map name tradeable_instruments)
  else None.

Section WithSession.

(** [session.get(url)] on the account endpoint, and the test
    [isinstance(e, requests.exceptions.RequestException)]. *)
Variable T : Type.
Variable instruments_get : T -> string -> pyresult InstrumentsBody * T.
Variable request_exception : exn -> bool.

Definition get_tradeable_instruments (oanda_url account_id : string) (s : T)
    : outcome (list Instrument) * T :=
  let url := oanda_url ++ "/accounts/" ++ account_id ++ "/instruments" in
  match instruments_get s url with
  | (Ok body, s') =>
      (Built match json_instruments body with
             | Some instruments => instruments
             | None => []
             end, s')
  | (Raise e, s') =>
      (if request_exception e then RequestErrorFrom e else Raised e, s')
  end.

(** [__init__]: the collector built from the account's instruments. *)
Definition init (account_id oanda_url : string) (s : T)
    : outcome DataCollector * T :=
  match get_tradeable_instruments oanda_url account_id s with
  | (Built tradeable_instruments, s') =>
      (Built (mkDataCollector oanda_url
                (get_instruments_names tradeable_instruments)), s')
  | (RequestErrorFrom e, s') => (RequestErrorFrom e, s')
  | (Raised e, s') => (Raised e, s')
  end.

End WithSession.

Arguments get_tradeable_instruments {T}.
Arguments init {T}.

End Bootstrap.

(** ** What a run asks of the session *)

Module Footprint.

(** A call as [get_candles] makes it: by count, within the cap, without an
    end date. *)
Definition window_call_ok (pair granularity price : string) (c : FetchCall)
    : bool :=
  String.eqb (a_pair_name c) pair && String.eqb (a_granularity c) granularity
  && String.eqb (a_price c) price && count_in_range (a_count c)
  && a_use_count c
  && match a_end c with None => true | Some _ => false end.

(** A request anchored by a count within the cap, with no ["to"]. *)
Definition request_by_count (req : Request) : bool :=
  match p_count (params req), p_to (params req) with
  | Some c, None => count_in_range c
  | _, _ => false
  end.

(** The candles the calls ask for, in all. *)
Definition asked (cs : list FetchCall) : Z :=
  fold_right (fun c acc => a_count c + acc) 0 cs.

(** What a stretch of a run has added to the traces: calls as [get_candles]
    makes them, not more requests than calls, every request by count. *)
Record stretch {T : Type} (pair granularity price : string) (w w' : World T)
    (cs : list FetchCall) : Prop := {
  st_calls : calls w' = (calls w ++ cs)%list;
  st_shape : forallb (window_call_ok pair granularity price) cs = true;
  st_sent : exists reqs,
      sent w' = (sent w ++ reqs)%list /\
      forallb request_by_count reqs = true /\
      (List.length reqs <= List.length cs)%nat
}.

End Footprint.

(** ** More of the concrete environment *)

Module Scenario.

(** A session whose every call fails in the transport. *)
Definition unreachable (s : unit) (req : Request) : pyresult Response * unit :=
  (Raise (OtherError "ConnectionError"), tt).

(** An account endpoint that answers with a fixed body. *)
Definition account (body : Bootstrap.InstrumentsBody) (s : unit) (url : string)
    : pyresult Bootstrap.InstrumentsBody * unit :=
  (Ok body, tt).

(** The failures of [requests], by name. *)
Definition of_requests (e : exn) : bool :=
  match e with
  | OtherError n => String.eqb n "ConnectionError" || String.eqb n "Timeout"
  | _ => false
  end.

Definition success (candles : list Candle) : Response :=
  mkResponse true "" (Some candles).

End Scenario.
(** ** The calendar: order and difference of dates *)

Module CalendarFacts.

Lemma days_before_year_succ (y : Z) :
  days_before_year (y + 1)
  = days_before_year y + 365 + (if is_leap y then 1 else 0).
Proof.
  unfold days_before_year, is_leap.
  destruct (y mod 4 =? 0) eqn:E4; destruct (y mod 100 =? 0) eqn:E100;
    destruct (y mod 400 =? 0) eqn:E400; cbn [andb orb negb];
    rewrite ?Z.eqb_eq, ?Z.eqb_neq in *;
    Z.div_mod_to_equations; lia.
Qed.

Lemma days_before_year_mono (y1 y2 : Z) :
  y1 <= y2 -> days_before_year y1 <= days_before_year y2.
Proof.
  unfold days_before_year. intros H. Z.div_mod_to_equations. lia.
Qed.

Lemma valid_fields_spec (y m d h mi s : Z) :
  valid_fields y m d h mi s = true ->
  1 <= y <= 9999 /\ 1 <= m <= 12 /\ 1 <= d <= days_in_month y m /\
  0 <= h <= 23 /\ 0 <= mi <= 59 /\ 0 <= s <= 59.
Proof.
  unfold valid_fields. rewrite !andb_true_iff, !Z.leb_le. lia.
Qed.

(** The last day of a month is before the first day of any later month. *)
Lemma days_before_month_step (y m1 m2 : Z) :
  1 <= m1 -> m1 < m2 -> m2 <= 12 ->
  days_before_month y m1 + days_in_month y m1 <= days_before_month y m2.
Proof.
  intros H1 H12 H2.
  month_cases m1; month_cases m2; try lia;
    unfold days_before_month, days_in_month; destruct (is_leap y);
    cbn -[Z.add]; lia.
Qed.

Lemma day_of_year_bounds (y m d : Z) :
  1 <= m <= 12 -> 1 <= d <= days_in_month y m ->
  1 <= days_before_month y m + d <= 365 + (if is_leap y then 1 else 0).
Proof.
  intros Hm. month_cases m;
    unfold days_before_month, days_in_month; destruct (is_leap y);
    cbn -[Z.add]; lia.
Qed.

Lemma agrees_compare (c : comparison) (x y : Z) : agrees c x y -> c = (x ?= y).
Proof.
  destruct c; cbn; intros H; symmetry.
  - now apply Z.compare_eq_iff.
  - now apply Z.compare_lt_iff.
  - now apply Z.compare_gt_iff.
Qed.

(** On valid dates the order of the fields is the order of the ordinals. *)
Lemma date_order (a b : datetime) :
  valid_datetime a = true -> valid_datetime b = true ->
  agrees (lex_compare [year a; month a; day a] [year b; month b; day b])
         (toordinal a) (toordinal b).
Proof.
  intros Ha Hb.
  apply valid_fields_spec in Ha as (Hya & Hma & Hda & _).
  apply valid_fields_spec in Hb as (Hyb & Hmb & Hdb & _).
  pose proof (day_of_year_bounds _ _ _ Hma Hda) as Ba.
  pose proof (day_of_year_bounds _ _ _ Hmb Hdb) as Bb.
  unfold toordinal; cbn [lex_compare].
  destruct (Z.compare_spec (year a) (year b)) as [Ey | Ly | Ly].
  - rewrite Ey in *.
    destruct (Z.compare_spec (month a) (month b)) as [Em | Lm | Lm].
    + rewrite Em in *.
      destruct (Z.compare_spec (day a) (day b)); cbn; lia.
    + cbn. pose proof (days_before_month_step (year b) _ _ (proj1 Hma) Lm (proj2 Hmb)). lia.
    + cbn. pose proof (days_before_month_step (year b) _ _ (proj1 Hmb) Lm (proj2 Hma)). lia.
  - cbn. pose proof (days_before_year_succ (year a)).
    pose proof (days_before_year_mono (year a + 1) (year b) ltac:(lia)). lia.
  - cbn. pose proof (days_before_year_succ (year b)).
    pose proof (days_before_year_mono (year b + 1) (year a) ltac:(lia)). lia.
Qed.

(** On valid values the order of the fields is the order of the readings. *)
Lemma fields_order (a b : datetime) :
  valid_datetime a = true -> valid_datetime b = true ->
  lex_compare (fields a) (fields b) = (wall_seconds a ?= wall_seconds b).
Proof.
  intros Ha Hb. apply agrees_compare.
  pose proof (date_order a b Ha Hb) as Hd.
  apply valid_fields_spec in Ha as (_ & _ & _ & Hh & Hmi & Hs).
  apply valid_fields_spec in Hb as (_ & _ & _ & Hh' & Hmi' & Hs').
  unfold fields, wall_seconds. cbn [lex_compare] in *.
  destruct (Z.compare_spec (year a) (year b));
    [destruct (Z.compare_spec (month a) (month b));
       [destruct (Z.compare_spec (day a) (day b)) |..] |..];
    cbn in Hd; try (cbn; lia).
  destruct (Z.compare_spec (hour a) (hour b));
    [destruct (Z.compare_spec (minute a) (minute b));
       [destruct (Z.compare_spec (second a) (second b)) |..] |..];
    cbn; lia.
Qed.

Lemma build_some (y m d h mi s : Z) (x : datetime) :
  build y m d h mi s = Some x ->
  x = mkDatetime y m d h mi s None /\ valid_datetime x = true.
Proof.
  unfold build. destruct (valid_fields y m d h mi s) eqn:V; [|discriminate].
  intros [= <-]. split; [reflexivity | exact V].
Qed.

(** [strptime] gives valid, naive values. *)
Lemma strptime_some (str : string) (f : date_format) (x : datetime) :
  strptime str f = Some x -> valid_datetime x = true /\ tzinfo x = None.
Proof.
  unfold strptime, bindo.
  destruct (match_date str) as [[[[y m] d] r]|]; [|discriminate].
  destruct f.
  - destruct r; [|discriminate].
    intros H. apply build_some in H as [-> V]. now split.
  - repeat match goal with
           | |- context [match ?o with Some _ => _ | None => _ end] =>
               destruct o; [|discriminate]
           | |- context [let '(_, _) := ?p in _] => destruct p
           end.
    match goal with |- context [match ?r with EmptyString => _ | String _ _ => _ end] =>
      destruct r; [|discriminate] end.
    intros H. apply build_some in H as [-> V]. now split.
Qed.

(** *** Reading back what [strftime] writes *)

Lemma forallb_below (f : Z -> bool) (n : nat) :
  forallb f (below n) = true ->
  forall z, 0 <= z < Z.of_nat n -> f z = true.
Proof.
  intros H z Hz. rewrite forallb_forall in H. apply H.
  unfold below. apply in_map_iff. exists (Z.to_nat z).
  split; [lia | apply in_seq; lia].
Qed.

Lemma digit_char_spec (n : Z) :
  is_digit (digit_char n) = true /\ digit_val (digit_char n) = n mod 10.
Proof.
  unfold digit_char.
  assert (H : 0 <= n mod 10 < 10) by (apply Z.mod_pos_bound; lia).
  set (k := n mod 10) in *.
  pose proof (forallb_below
                (fun k => is_digit (ascii_of_nat (Z.to_nat k + 48))
                          && (digit_val (ascii_of_nat (Z.to_nat k + 48)) =? k))
                10 eq_refl k H) as Hk.
  apply andb_true_iff in Hk as [Hd Hv]. apply Z.eqb_eq in Hv. now split.
Qed.

Lemma group_pad2 (two : ascii -> ascii -> bool) (one : ascii -> bool)
    (n : Z) (k : string) :
  0 <= n < 100 ->
  two (digit_char (n / 10)) (digit_char n) = true ->
  group two one (pad2 n k) = Some (n, k).
Proof.
  intros Hn H. unfold group, pad2. rewrite H.
  rewrite (proj2 (digit_char_spec (n / 10))), (proj2 (digit_char_spec n)).
  do 2 f_equal. Z.div_mod_to_equations. lia.
Qed.

Lemma group_Y_pad4 (y : Z) (k : string) :
  0 <= y <= 9999 -> group_Y (pad4 y k) = Some (y, k).
Proof.
  intros Hy. unfold group_Y, pad4, pad2.
  rewrite !(proj1 (digit_char_spec _)), !(proj2 (digit_char_spec _)).
  cbn [andb]. do 2 f_equal. Z.div_mod_to_equations. lia.
Qed.

Lemma literal_same (c : ascii) (r : string) : literal c (String c r) = Some r.
Proof. unfold literal, eqc. now rewrite Ascii.eqb_refl. Qed.

Lemma two_on_spec (two : ascii -> ascii -> bool) (lo hi : Z) :
  forallb (two_on two lo hi) (below 100) = true ->
  forall n, 0 <= lo -> hi < 100 -> lo <= n <= hi ->
    two (digit_char (n / 10)) (digit_char n) = true.
Proof.
  intros H n Hlo Hhi Hn.
  pose proof (forallb_below _ 100 H n ltac:(lia)) as Hb.
  unfold two_on in Hb.
  replace ((lo <=? n) && (n <=? hi)) with true in Hb; [exact Hb|].
  symmetry. apply andb_true_iff. split; apply Z.leb_le; lia.
Qed.

Lemma days_in_month_le_31 (y m : Z) : days_in_month y m <= 31.
Proof.
  unfold days_in_month.
  destruct (m =? 2); [destruct (is_leap y); lia|].
  destruct ((m =? 4) || (m =? 6) || (m =? 9) || (m =? 11)); lia.
Qed.

Lemma year_digits_recent (y : Z) (k : string) :
  1000 <= y -> year_digits y k = pad4 y k.
Proof.
  intros H. unfold year_digits.
  destruct (Z.ltb_spec y 10); [lia|]. destruct (Z.ltb_spec y 100); [lia|].
  destruct (Z.ltb_spec y 1000); [lia | reflexivity].
Qed.

(** From the year 1000 on, [strptime] reads what [strftime] writes for a
    valid value: the same fields, naive. *)
Lemma strptime_strftime (d : datetime) :
  valid_datetime d = true -> 1000 <= year d ->
  strptime (strftime d) fmt_datetime = Some (with_tzinfo d None).
Proof.
  intros V Hrecent. pose proof V as V'.
  apply valid_fields_spec in V' as (Hy & Hm & Hd & Hh & Hmi & Hs).
  pose proof (days_in_month_le_31 (year d) (month d)) as Hdim.
  unfold strptime, match_date, strftime.
  rewrite year_digits_recent by exact Hrecent.
  rewrite group_Y_pad4 by lia. cbn [bindo].
  rewrite literal_same. cbn [bindo].
  rewrite group_pad2;
    [| lia | apply (two_on_spec m_two 1 12); [vm_compute; reflexivity | lia..]].
  cbn [bindo]. rewrite literal_same. cbn [bindo].
  rewrite group_pad2;
    [| lia | apply (two_on_spec d_two 1 31); [vm_compute; reflexivity | lia..]].
  cbn [bindo]. rewrite literal_same. cbn [bindo].
  rewrite group_pad2;
    [| lia | apply (two_on_spec H_two 0 23); [vm_compute; reflexivity | lia..]].
  cbn [bindo]. rewrite literal_same. cbn [bindo].
  rewrite group_pad2;
    [| lia | apply (two_on_spec M_two 0 59); [vm_compute; reflexivity | lia..]].
  cbn [bindo]. rewrite literal_same. cbn [bindo].
  rewrite group_pad2;
    [| lia | apply (two_on_spec S_two 0 59); [vm_compute; reflexivity | lia..]].
  cbn [bindo]. rewrite literal_same. cbn [bindo].
  unfold build. unfold valid_datetime in V. rewrite V. reflexivity.
Qed.

(** Before the year 1000 the year is written on fewer than four digits,
    which [%Y] of [strptime] does not read. *)
Lemma strptime_strftime_early (d : datetime) :
  year d < 1000 -> strptime (strftime d) fmt_datetime = None.
Proof.
  intros H. unfold strptime, match_date, strftime, year_digits.
  assert (Hdash : is_digit "-" = false) by reflexivity.
  destruct (Z.ltb_spec (year d) 10);
    [|destruct (Z.ltb_spec (year d) 100);
      [|destruct (Z.ltb_spec (year d) 1000); [|lia]]];
    unfold pad2, group_Y; rewrite ?Hdash, ?andb_false_r; reflexivity.
Qed.

Lemma contains_T_strftime (d : datetime) :
  inferred_format (strftime d) = fmt_datetime.
Proof.
  unfold inferred_format, strftime, year_digits.
  destruct (year d <? 10); [|destruct (year d <? 100);
                              [|destruct (year d <? 1000)]];
    unfold pad4, pad2; cbn [contains_char];
    replace (eqc "T" "T") with true by reflexivity;
    now rewrite !orb_true_r.
Qed.

End CalendarFacts.

Import CalendarFacts.

(** ** The granularity calendar *)

Lemma delta_minutes_known (granularity : string) :
  In granularity calendar_granularities ->
  exists delta, delta_minutes granularity = Some delta /\ 0 < delta.
Proof.
  unfold calendar_granularities. cbn [In].
  intros H; repeat (destruct H as [<- | H]); [..|contradiction];
    eexists; (split; [reflexivity | lia]).
Qed.

Lemma naive_instant (d : datetime) : tzinfo d = None -> instant d = wall_seconds d.
Proof. unfold instant. intros ->. lia. Qed.

Lemma total_seconds_wall (a b : datetime) :
  total_seconds a b = wall_seconds a - wall_seconds b.
Proof. unfold total_seconds, wall_seconds. lia. Qed.

(** [dt1 >= dt2] on two results of [strptime]. *)
Lemma dt_ge_parsed (s1 s2 : string) (f1 f2 : date_format) (dt1 dt2 : datetime) :
  strptime s1 f1 = Some dt1 -> strptime s2 f2 = Some dt2 ->
  dt_ge dt1 dt2 = Ok (instant dt2 <=? instant dt1).
Proof.
  intros H1 H2.
  apply strptime_some in H1 as [V1 N1]. apply strptime_some in H2 as [V2 N2].
  unfold dt_ge. rewrite N1, N2, (fields_order _ _ V1 V2).
  rewrite !naive_instant by assumption. f_equal.
  destruct (Z.compare_spec (wall_seconds dt1) (wall_seconds dt2));
    symmetry; [apply Z.leb_le | apply Z.leb_gt | apply Z.leb_le]; lia.
Qed.

(** The table of the [match] statement is the table of durations. *)
Lemma delta_minutes_table (granularity : string) (delta : Z) :
  In (granularity, delta) candle_minutes ->
  delta_minutes granularity = Some delta /\ 0 < delta.
Proof.
  unfold candle_minutes. cbn [In].
  intros H; repeat (destruct H as [[= <- <-] | H]); [..|contradiction];
    (split; [reflexivity | lia]).
Qed.



(** ** One request: [fetch_candles] *)

Lemma mem_In (x : string) (l : list string) : mem x l = true <-> In x l.
Proof.
  unfold mem. rewrite existsb_exists. split.
  - intros (y & Hy & E). apply String.eqb_eq in E. now subst.
  - intros H. exists x. split; [exact H | apply String.eqb_refl].
Qed.

Lemma mem_not_In (x : string) (l : list string) : mem x l = false <-> ~ In x l.
Proof.
  rewrite <- mem_In. destruct (mem x l); split; intros; congruence.
Qed.

Lemma count_in_range_spec (count : Z) :
  count_in_range count = true <-> 1 <= count <= CANDLE_COUNT.
Proof.
  unfold count_in_range. rewrite andb_true_iff, Z.leb_le, Z.ltb_lt. lia.
Qed.

Section FetchFacts.

Variable T : Type.
Variable session_get : T -> Request -> pyresult Response * T.
Variable parser_parse : string -> pyresult datetime.

Lemma fetch_candles_validated self pair_name start end_ granularity count price
    use_count start' end' (w : World T) :
  validated parser_parse self pair_name start end_ granularity count price
    start' end' ->
  let c := mkFetchCall pair_name start end_ granularity count price use_count in
  let req := the_request self pair_name granularity price start' end' count use_count in
  fetch_candles session_get parser_parse self pair_name start end_ granularity
    count price use_count w
  = (answer (fst (session_get (session w) req)),
     requested w c req (snd (session_get (session w) req))).
Proof.
  intros [(known & Hi & Hk) Hg Hd Hp Hc] c req.
  apply mem_In in Hk, Hg, Hp. apply count_in_range_spec in Hc.
  unfold fetch_candles, bind, called, lift, not_in_instruments.
  cbn [fst snd]. rewrite Hi, Hk, Hg, Hd, Hp, Hc. cbn [negb].
  unfold get, requested, answer, raise, ret. cbn [session sent calls printed].
  subst req c. unfold the_request.
  destruct (session_get (session w) _) as [[res|e] s']; cbn [fst snd];
    [|reflexivity].
  destruct (ok res); cbn [negb]; [|reflexivity].
  destruct (json_candles res); reflexivity.
Qed.

End FetchFacts.

Section FetchClaims.

Variable T : Type.
Variable session_get : T -> Request -> pyresult Response * T.
Variable parser_parse : string -> pyresult datetime.

(** A date the parser refuses: only its [TypeError] is turned into
    [InvalidFunctionArguments]; any other exception leaves as it is. *)
Lemma normalise_dates_start_raises (fn start : string) (end_ : option string)
    (e : exn) :
  parser_parse start = Raise e ->
  normalise_dates parser_parse fn start end_
  = Raise match e with
          | TypeError => InvalidFunctionArguments fn (ArgDates start end_)
          | _ => e
          end.
Proof.
  unfold normalise_dates. intros ->. destruct e; reflexivity.
Qed.

(** The checks before the dates have passed: the outcome of the [try] block
    is the outcome of the call. *)
Lemma fetch_candles_dates_raise self pair_name start end_ granularity count
    price use_count known (e : exn) (w : World T) :
  instruments self = Some known -> In pair_name known ->
  In granularity granularity_list ->
  normalise_dates parser_parse "fetch_candles" start end_ = Raise e ->
  fetch_candles session_get parser_parse self pair_name start end_ granularity
    count price use_count w
  = (Raise e,
     entered w (mkFetchCall pair_name start end_ granularity count price use_count)).
Proof.
  intros Hi Hk Hg Hd. apply mem_In in Hk, Hg.
  unfold fetch_candles, bind, called, lift, not_in_instruments.
  rewrite Hi, Hk, Hg, Hd. reflexivity.
Qed.

(** C9: [fetch_candles] checks the pair, the granularity, the dates, the
    price and the count, in this order; the first check that fails decides
    the exception, and the world is then left as it was on entry (no request
    is sent).  An unknown pair is refused whatever the other parameters are;
    once the earlier checks pass, a count below 1 or above [CANDLE_COUNT]
    (so 0 and 4001) is refused, and every count from 1 to [CANDLE_COUNT] is
    accepted: the request is sent. *)
Theorem fetch_candles_checks_in_order self pair_name start end_ granularity
    count price use_count known (w : World T) :
  instruments self = Some known ->
  let c := mkFetchCall pair_name start end_ granularity count price use_count in
  let run := fetch_candles session_get parser_parse self pair_name start end_
               granularity count price use_count w in
  let refused a := (Raise (InvalidFunctionArguments "fetch_candles" a), entered w c) in
  (~ In pair_name known -> run = refused (ArgStr pair_name)) /\
  (In pair_name known -> ~ In granularity granularity_list ->
     run = refused (ArgStr granularity)) /\
  (In pair_name known -> In granularity granularity_list ->
     forall e, normalise_dates parser_parse "fetch_candles" start end_ = Raise e ->
     run = (Raise e, entered w c)) /\
  (In pair_name known -> In granularity granularity_list ->
     forall start' end',
     normalise_dates parser_parse "fetch_candles" start end_ = Ok (start', end') ->
     (~ In price price_list -> run = refused (ArgStr price)) /\
     (In price price_list -> count < 1 \/ CANDLE_COUNT < count ->
        run = refused (ArgInt count)) /\
     (In price price_list -> 1 <= count <= CANDLE_COUNT ->
        sent (snd run)
        = (sent w ++ [the_request self pair_name granularity price start' end'
                        count use_count])%list)).
Proof.
  intros Hi c run refused. subst run refused.
  split; [|split; [|split]].
  - intros Hk. apply mem_not_In in Hk.
    unfold fetch_candles, bind, called, lift, not_in_instruments.
    rewrite Hi, Hk. reflexivity.
  - intros Hk Hg. apply mem_In in Hk. apply mem_not_In in Hg.
    unfold fetch_candles, bind, called, lift, not_in_instruments.
    rewrite Hi, Hk, Hg. reflexivity.
  - intros Hk Hg e Hd. now apply fetch_candles_dates_raise with (known := known).
  - intros Hk Hg start' end' Hd. split; [|split].
    + intros Hp. apply mem_In in Hk, Hg. apply mem_not_In in Hp.
      unfold fetch_candles, bind, called, lift, not_in_instruments.
      rewrite Hi, Hk, Hg, Hd, Hp. reflexivity.
    + intros Hp Hc. apply mem_In in Hk, Hg, Hp.
      assert (Hr : count_in_range count = false).
      { destruct (count_in_range count) eqn:E; [|reflexivity].
        apply count_in_range_spec in E. lia. }
      unfold fetch_candles, bind, called, lift, not_in_instruments.
      rewrite Hi, Hk, Hg, Hd, Hp, Hr. reflexivity.
    + intros Hp Hc.
      rewrite (fetch_candles_validated T session_get parser_parse self pair_name
                 start end_ granularity count price use_count start' end' w).
      * reflexivity.
      * constructor; eauto.
Qed.

(** C8: for a call whose parameters pass the checks, a response that is not
    a success raises [RequestError] carrying the response; a success with no
    ["candles"] entry raises [NullCandles]; a success with the entry returns
    its list as it is, the empty list included. *)
Theorem fetch_candles_response self pair_name start end_ granularity count
    price use_count start' end' (res : Response) (s' : T) (w : World T) :
  validated parser_parse self pair_name start end_ granularity count price
    start' end' ->
  session_get (session w)
    (the_request self pair_name granularity price start' end' count use_count)
  = (Ok res, s') ->
  let result := fst (fetch_candles session_get parser_parse self pair_name start
                       end_ granularity count price use_count w) in
  (ok res = false -> result = Raise (RequestError res)) /\
  (ok res = true -> json_candles res = None -> result = Raise (NullCandles res)) /\
  (forall candles, ok res = true -> json_candles res = Some candles ->
     result = Ok candles).
Proof.
  intros Hv Hs result. subst result.
  rewrite (fetch_candles_validated _ _ _ _ _ _ _ _ _ _ use_count _ _ w Hv), Hs.
  cbn [fst answer].
  repeat split.
  - intros ->. reflexivity.
  - intros -> ->. reflexivity.
  - intros candles -> ->. reflexivity.
Qed.

(** C10: for a call whose parameters pass the checks, the request carries
    ["count"] and no ["to"] exactly when [use_count] is true and there is no
    end date; in every other case it carries ["to"], holding the normalised
    end date or [None], and no ["count"]: the count plays no part in it. *)
Theorem fetch_candles_anchor self pair_name start end_ granularity count
    price use_count start' end' (w : World T) :
  validated parser_parse self pair_name start end_ granularity count price
    start' end' ->
  exists req,
    sent (snd (fetch_candles session_get parser_parse self pair_name start end_
                 granularity count price use_count w))
    = (sent w ++ [req])%list /\
    request_url req = OANDA_URL self ++ "/instruments/" ++ pair_name ++ "/candles" /\
    (use_count = true /\ end_ = None ->
       params req = mkParams granularity price start' (Some count) None) /\
    (~ (use_count = true /\ end_ = None) ->
       params req = mkParams granularity price start' None (Some end')).
Proof.
  intros Hv.
  rewrite (fetch_candles_validated _ _ _ _ _ _ _ _ _ _ use_count _ _ w Hv).
  eexists. split; [reflexivity|]. split; [reflexivity|].
  assert (He : end_ = None <-> end' = None).
  { destruct Hv as [_ _ Hd _ _]. unfold normalise_dates in Hd.
    destruct (parser_parse start) as [ds|[]]; try discriminate.
    destruct end_ as [e|].
    - destruct (parser_parse e) as [de|[]]; try discriminate.
      injection Hd as _ <-. split; discriminate.
    - injection Hd as _ <-. tauto. }
  cbn [the_request params]. unfold build_params. split.
  - intros [-> E]. apply He in E. rewrite E. reflexivity.
  - intros N. destruct use_count; [|reflexivity].
    destruct end' as [e'|]; [reflexivity|].
    exfalso. apply N. split; [reflexivity | now apply He].
Qed.

End FetchClaims.

Import Sample.

(** The checks at work: counts 0 and 4001 are refused without a request,
    count 4000 is sent. *)
Lemma fetch_candles_checks_in_order_witness :
  let call count :=
    fetch_candles scripted iso_parse collector "EUR_USD" "2020-01-01" None "H1"
      count "MBA" true (fresh []) in
  fst (call 0) = Raise (InvalidFunctionArguments "fetch_candles" (ArgInt 0)) /\
  sent (snd (call 0)) = [] /\
  fst (call 4001) = Raise (InvalidFunctionArguments "fetch_candles" (ArgInt 4001)) /\
  sent (snd (call 4001)) = [] /\
  sent (snd (call 4000))
  = [the_request collector "EUR_USD" "H1" "MBA" "2020-01-01T00:00:00Z" None 4000 true].
Proof.
  intros call.
  assert (Hk : In "EUR_USD" ["EUR_USD"; "GBP_USD"]) by (cbn; tauto).
  assert (Hg : In "H1" granularity_list) by (cbn; tauto).
  assert (Hp : In "MBA" price_list) by (cbn; tauto).
  assert (Hd : normalise_dates iso_parse "fetch_candles" "2020-01-01" None
               = Ok ("2020-01-01T00:00:00Z", None)) by (vm_compute; reflexivity).
  assert (H : forall count,
             (count < 1 \/ CANDLE_COUNT < count ->
              call count = (Raise (InvalidFunctionArguments "fetch_candles" (ArgInt count)),
                            entered (fresh [])
                              (mkFetchCall "EUR_USD" "2020-01-01" None "H1" count "MBA" true))) /\
             (1 <= count <= CANDLE_COUNT ->
              sent (snd (call count))
              = [the_request collector "EUR_USD" "H1" "MBA" "2020-01-01T00:00:00Z"
                   None count true])).
  { intros count.
    destruct (fetch_candles_checks_in_order (list Response) scripted iso_parse
                collector "EUR_USD" "2020-01-01" None "H1" count "MBA" true
                ["EUR_USD"; "GBP_USD"] (fresh []) eq_refl)
      as (_ & _ & _ & Hrest).
    destruct (Hrest Hk Hg _ _ Hd) as (_ & Hbad & Hgood).
    split; [exact (Hbad Hp) | exact (Hgood Hp)]. }
  destruct (H 0) as [H0 _]. destruct (H 4001) as [H1 _]. destruct (H 4000) as [_ H2].
  rewrite H0, H1 by (unfold CANDLE_COUNT; lia).
  rewrite H2 by (unfold CANDLE_COUNT; lia).
  repeat split.
Defined.

Lemma sample_validated (count : Z) :
  1 <= count <= CANDLE_COUNT ->
  validated iso_parse collector "EUR_USD" "2020-01-01" None "H1" count "MBA"
    "2020-01-01T00:00:00Z" None.
Proof.
  intros Hc. constructor.
  - exists ["EUR_USD"; "GBP_USD"]. split; [reflexivity | cbn; tauto].
  - cbn; tauto.
  - vm_compute; reflexivity.
  - cbn; tauto.
  - exact Hc.
Defined.

(** A success with an empty candle list is returned as the empty list. *)
Lemma fetch_candles_response_witness :
  fst (fetch_candles scripted iso_parse collector "EUR_USD" "2020-01-01" None "H1"
         10 "MBA" true (fresh [mkResponse true "{}" (Some [])]))
  = Ok [].
Proof.
  destruct (fetch_candles_response (list Response) scripted iso_parse collector
              "EUR_USD" "2020-01-01" None "H1" 10 "MBA" true
              "2020-01-01T00:00:00Z" None (mkResponse true "{}" (Some [])) []
              (fresh [mkResponse true "{}" (Some [])]))
    as (_ & _ & H).
  - apply sample_validated. unfold CANDLE_COUNT. lia.
  - reflexivity.
  - apply H; reflexivity.
Defined.

(** A request by count, and the same call with an end date besides. *)
Lemma fetch_candles_anchor_witness :
  exists req,
    sent (snd (fetch_candles scripted iso_parse collector "EUR_USD" "2020-01-01"
                 None "H1" 10 "MBA" true (fresh [])))
    = [req] /\
    params req = mkParams "H1" "MBA" "2020-01-01T00:00:00Z" (Some 10) None.
Proof.
  destruct (fetch_candles_anchor (list Response) scripted iso_parse collector
              "EUR_USD" "2020-01-01" None "H1" 10 "MBA" true
              "2020-01-01T00:00:00Z" None (fresh []))
    as (req & Hs & _ & Hc & _).
  - apply sample_validated. unfold CANDLE_COUNT. lia.
  - exists req. split; [exact Hs | apply Hc; split; reflexivity].
Defined.

(** C7: a start string the parser does not recognise.  The pair and the
    granularity are valid; the call leaves with the parser's [ValueError],
    not with [InvalidFunctionArguments]: the [try] block guards against
    [TypeError] alone. *)
Theorem fetch_candles_unrecognised_start :
  fetch_candles scripted iso_parse collector "EUR_USD" "hello" None
    "H1" 10 "MBA" false (fresh [])
  = (Raise ValueError,
     entered (fresh [])
       (mkFetchCall "EUR_USD" "hello" None "H1" 10 "MBA" false)).
Proof.
  apply fetch_candles_dates_raise with (known := ["EUR_USD"; "GBP_USD"]).
  - reflexivity.
  - cbn; tauto.
  - cbn; tauto.
  - apply (normalise_dates_start_raises iso_parse _ _ _ ValueError).
    vm_compute; reflexivity.
Qed.

(** ** Windows: [get_candles] and the loop *)

Lemma iterations_step (n : Z) :
  0 < n ->
  iterations n = S (iterations (n - Z.min n CANDLE_COUNT)).
Proof.
  unfold iterations, CANDLE_COUNT. intros Hn.
  rewrite <- Z2Nat.inj_succ.
  - f_equal. destruct (Z.min_spec n 4000) as [[? ->]|[? ->]].
    + replace (n - n + 4000 - 1) with 3999 by lia.
      Z.div_mod_to_equations. lia.
    + Z.div_mod_to_equations. lia.
  - apply Z.div_pos; lia.
Qed.

Section CollectFacts.

Variable T : Type.
Variable session_get : T -> Request -> pyresult Response * T.
Variable parser_parse : string -> pyresult datetime.

Lemma bind_Ok {A B} (c : M T A) (k : A -> M T B) (w w' : World T) (b : B) :
  bind c k w = (Ok b, w') ->
  exists a w1, c w = (Ok a, w1) /\ k a w1 = (Ok b, w').
Proof.
  unfold bind. destruct (c w) as [[a|e] w1]; [|discriminate].
  intros H. now exists a, w1.
Qed.

Lemma lift_Ok {A} (r : pyresult A) (w w' : World T) (a : A) :
  lift r w = (Ok a, w') -> r = Ok a /\ w' = w.
Proof. unfold lift. intros [= -> ->]. now split. Qed.

(** A call of [fetch_candles] records itself, sends at most one request and
    prints nothing. *)
Lemma fetch_candles_world self pair_name start end_ granularity count price
    use_count (w : World T) :
  exists s' reqs,
    snd (fetch_candles session_get parser_parse self pair_name start end_
           granularity count price use_count w)
    = mkWorld s' (sent w ++ reqs)%list
        (calls w ++ [mkFetchCall pair_name start end_ granularity count price
                       use_count])%list
        (printed w)
    /\ (List.length reqs <= 1)%nat.
Proof.
  unfold fetch_candles, bind, called, lift, raise, ret, get.
  cbn [session sent calls printed].
  destruct (not_in_instruments self pair_name) as [[|]|];
    try (exists (session w), []; rewrite app_nil_r; cbn; split; [reflexivity | lia]).
  destruct (negb (mem granularity granularity_list));
    try (exists (session w), []; rewrite app_nil_r; cbn; split; [reflexivity | lia]).
  destruct (normalise_dates _ _ _ _) as [[start' end']|];
    try (exists (session w), []; rewrite app_nil_r; cbn; split; [reflexivity | lia]).
  destruct (negb (mem price price_list));
    try (exists (session w), []; rewrite app_nil_r; cbn; split; [reflexivity | lia]).
  destruct (negb (count_in_range count));
    try (exists (session w), []; rewrite app_nil_r; cbn; split; [reflexivity | lia]).
  cbv beta zeta. cbn [session sent calls printed].
  destruct (session_get (session w) _) as [[res|e] s'] eqn:E;
    cbn [session sent calls printed].
  - exists s'. eexists [_]. split; [|cbn; lia].
    destruct (negb (ok res)); [reflexivity|].
    destruct (json_candles res); reflexivity.
  - exists s'. eexists [_]. split; [reflexivity | cbn; lia].
Qed.

(** [get_candles] by the outcome of its call of [fetch_candles]. *)
Lemma get_candles_cases self pair granularity price p_count start_date
    (w : World T) :
  get_candles session_get parser_parse self pair granularity price p_count
    start_date w
  = match fetch_candles session_get parser_parse self pair (strftime start_date)
            None granularity p_count price true w with
    | (Ok candles, w1) => (Ok (Some candles), w1)
    | (Raise e, w1) =>
        if handled e then (Ok None, logged w1 (line_of e)) else (Raise e, w1)
    end.
Proof.
  unfold get_candles.
  destruct (fetch_candles _ _ _ _ _ _ _ _ _ _ w) as [[candles|e] w1];
    [reflexivity|].
  destruct e; reflexivity.
Qed.

(** One window is one call of [fetch_candles], whatever its outcome. *)
Lemma get_candles_calls self pair granularity price p_count start_date
    (w : World T) :
  calls (snd (get_candles session_get parser_parse self pair granularity price
                p_count start_date w))
  = (calls w ++ [mkFetchCall pair (strftime start_date) None granularity p_count
                   price true])%list.
Proof.
  rewrite get_candles_cases.
  destruct (fetch_candles_world self pair (strftime start_date) None granularity
              p_count price true w) as (s' & reqs & Hw & _).
  destruct (fetch_candles _ _ _ _ _ _ _ _ _ _ w) as [[candles|e] w1];
    cbn [snd] in *; subst w1; [reflexivity|].
  destruct (handled e); reflexivity.
Qed.

Section LoopFacts.

Variable self : DataCollector.
Variables pair granularity price : string.
Variable to_date : datetime.

Local Abbreviation body := (loop_body session_get parser_parse self pair granularity
                          price to_date).
Local Abbreviation loop := (while_loop session_get parser_parse self pair granularity
                          price to_date).
Local Abbreviation window := (get_candles session_get parser_parse self pair
                            granularity price).
Local Abbreviation window_call := (Collector.window_call pair granularity price).

(** An iteration that ends without an exception. *)
Lemma loop_body_Ok (st : LoopState) (w w' : World T) (fl : Flow) :
  body st w = (Ok fl, w') ->
  exists L c d stop,
    window (Z.min (count st) CANDLE_COUNT) (from_date st)
      (logged w (ProgressLine pair (progress st))) = (Ok (Some L), w') /\
    last_candle (candles st ++ L) = Ok c /\
    parser_parse (time c) = Ok d /\
    dt_ge d to_date = Ok stop /\
    fl = (if stop then Break else Continue) (advanced st L d).
Proof.
  unfold loop_body. intros H.
  apply bind_Ok in H as (u & w1 & Hp & H).
  unfold print in Hp. injection Hp as _ <-.
  apply bind_Ok in H as (r & w2 & Hg & H).
  apply bind_Ok in H as (cs & w3 & He & H). apply lift_Ok in He as [He ->].
  apply bind_Ok in H as (c & w3 & Hc & H). apply lift_Ok in Hc as [Hc ->].
  apply bind_Ok in H as (d & w3 & Hd & H). apply lift_Ok in Hd as [Hd ->].
  apply bind_Ok in H as (stop & w3 & Hs & H). apply lift_Ok in Hs as [Hs ->].
  destruct r as [L|]; [|discriminate]. injection He as <-.
  assert (Hw : w' = w2 /\ fl = (if stop then Break else Continue) (advanced st L d)).
  { destruct stop; unfold ret in H; injection H as Hf Hw; now subst. }
  destruct Hw as [-> ->].
  exists L, c, d, stop. repeat split; assumption.
Qed.

(** Whatever its outcome, an iteration leaves the world its window left. *)
Lemma loop_body_world (st : LoopState) (w : World T) :
  snd (body st w)
  = snd (window (Z.min (count st) CANDLE_COUNT) (from_date st)
           (logged w (ProgressLine pair (progress st)))).
Proof.
  unfold loop_body, bind, print, lift, ret. fold (logged w (ProgressLine pair (progress st))).
  destruct (window _ _ _) as [[r|e] w1]; [|reflexivity].
  destruct (extend (candles st) r) as [cs|]; [|reflexivity].
  destruct (last_candle cs) as [c|]; [|reflexivity].
  destruct (parser_parse (time c)) as [d|]; [|reflexivity].
  destruct (dt_ge d to_date) as [[|]|]; reflexivity.
Qed.

Lemma loop_body_calls (st : LoopState) (w : World T) :
  calls (snd (body st w)) = (calls w ++ [window_call st])%list.
Proof. rewrite loop_body_world, get_candles_calls. reflexivity. Qed.

Lemma while_loop_O (st : LoopState) (w : World T) :
  loop O st w = if count st >? 0 then None else Some (Ok st, w).
Proof. reflexivity. Qed.

Lemma while_loop_S (fuel : nat) (st : LoopState) (w : World T) :
  loop (S fuel) st w
  = if count st >? 0 then
      match body st w with
      | (Ok (Continue st'), w') => loop fuel st' w'
      | (Ok (Break st'), w') => Some (Ok st', w')
      | (Raise e, w') => Some (Raise e, w')
      end
    else Some (Ok st, w).
Proof. reflexivity. Qed.

(** The loop leaves within [iterations (count st)] iterations. *)
Lemma while_loop_total (fuel : nat) :
  forall (st : LoopState) (w : World T),
    (iterations (count st) <= fuel)%nat ->
    exists r, loop fuel st w = Some r.
Proof.
  induction fuel as [|fuel IH]; intros st w Hf.
  - rewrite while_loop_O. destruct (count st >? 0) eqn:E; [|eauto].
    apply Z.gtb_lt in E. rewrite iterations_step in Hf by exact E. lia.
  - rewrite while_loop_S. destruct (count st >? 0) eqn:E; [|eauto].
    apply Z.gtb_lt in E.
    destruct (body st w) as [[[st'|st']|e] w'] eqn:B; eauto.
    apply IH. apply loop_body_Ok in B as (L & c & d & stop & _ & _ & _ & _ & Hfl).
    destruct stop; [discriminate|]. injection Hfl as ->. cbn [count advanced].
    rewrite iterations_step in Hf by exact E. lia.
Qed.

(** More fuel does not change a result. *)
Lemma while_loop_more_fuel (fuel : nat) :
  forall (st : LoopState) (w : World T) r,
    loop fuel st w = Some r -> loop (S fuel) st w = Some r.
Proof.
  induction fuel as [|fuel IH]; intros st w r.
  - rewrite while_loop_O, while_loop_S.
    destruct (count st >? 0); [discriminate | auto].
  - rewrite (while_loop_S fuel), (while_loop_S (S fuel)).
    destruct (count st >? 0); [|auto].
    destruct (body st w) as [[[st'|st']|e] w']; auto.
Qed.

Lemma while_loop_fuel_le (fuel fuel' : nat) (st : LoopState) (w : World T) r :
  (fuel <= fuel')%nat -> loop fuel st w = Some r -> loop fuel' st w = Some r.
Proof.
  induction 1 as [|fuel' _ IH]; [auto|].
  intros H. now apply while_loop_more_fuel, IH.
Qed.

(** The calls of a run of the loop: those before it, then its own. *)
Lemma while_loop_calls (fuel : nat) :
  forall (st : LoopState) (w w' : World T) r,
    loop fuel st w = Some (r, w') ->
    exists cs, calls w' = (calls w ++ cs)%list /\
               (0 < count st -> exists rest, cs = window_call st :: rest).
Proof.
  induction fuel as [|fuel IH]; intros st w w' r.
  - rewrite while_loop_O. destruct (count st >? 0) eqn:E; [discriminate|].
    intros [= <- <-]. exists []. rewrite app_nil_r. split; [reflexivity|].
    intros Hc. apply Z.gtb_lt in Hc. congruence.
  - rewrite while_loop_S. destruct (count st >? 0) eqn:E.
    + pose proof (loop_body_calls st w) as Hc.
      destruct (body st w) as [[[st'|st']|e] w1]; cbn [snd] in Hc.
      * intros H. apply IH in H as (cs & Hcs & _).
        exists (window_call st :: cs). rewrite Hcs, Hc, <- app_assoc.
        split; [reflexivity | eauto].
      * intros [= <- <-]. exists [window_call st]. split; [exact Hc | eauto].
      * intros [= <- <-]. exists [window_call st]. split; [exact Hc | eauto].
    + intros [= <- <-]. exists []. rewrite app_nil_r. split; [reflexivity|].
      intros Hc. apply Z.gtb_lt in Hc. congruence.
Qed.

End LoopFacts.

End CollectFacts.

(** ** The count of a run *)

Lemma calculate_candles_between_raises (from_date to_date granularity : string)
    (e : exn) :
  calculate_candles_between from_date to_date granularity = Raise e ->
  e = ValueError.
Proof.
  unfold calculate_candles_between.
  destruct (strptime from_date _) as [dt1|] eqn:E1; [|congruence].
  destruct (strptime to_date _) as [dt2|] eqn:E2; [|congruence].
  rewrite (dt_ge_parsed _ _ _ _ _ _ E1 E2).
  destruct (instant dt2 <=? instant dt1); [congruence|].
  destruct (delta_minutes granularity); congruence.
Qed.

(** The count from two valid dates, by their readings; a date before the
    year 1000 is not read back. *)
Lemma calculate_candles_between_strftime (d1 d2 : datetime) (granularity : string) :
  valid_datetime d1 = true -> valid_datetime d2 = true ->
  calculate_candles_between (strftime d1) (strftime d2) granularity
  = if (year d1 <? 1000) || (year d2 <? 1000) then Raise ValueError
    else if wall_seconds d2 <=? wall_seconds d1 then Raise ValueError
    else match delta_minutes granularity with
         | None => Raise ValueError
         | Some delta => Ok (Z.quot (wall_seconds d2 - wall_seconds d1) 60 / delta)
         end.
Proof.
  intros V1 V2. unfold calculate_candles_between.
  rewrite contains_T_strftime.
  destruct (Z.ltb_spec (year d1) 1000) as [E1|E1]; cbn [orb].
  { now rewrite strptime_strftime_early. }
  pose proof (strptime_strftime d1 V1 E1) as P1. rewrite P1.
  destruct (Z.ltb_spec (year d2) 1000) as [E2|E2].
  { now rewrite strptime_strftime_early. }
  pose proof (strptime_strftime d2 V2 E2) as P2.
  rewrite P2, (dt_ge_parsed _ _ _ _ _ _ P1 P2).
  rewrite !naive_instant by reflexivity.
  rewrite total_seconds_wall. reflexivity.
Qed.

Section CollectClaims.

Variable T : Type.
Variable session_get : T -> Request -> pyresult Response * T.
Variable parser_parse : string -> pyresult datetime.

Local Abbreviation fetch := (fetch_candles session_get parser_parse).
Local Abbreviation collect := (collect_large_candle_data session_get parser_parse).
Local Abbreviation windows := (collect_windows session_get parser_parse).
Local Abbreviation checks := (collect_checks parser_parse).

Lemma collect_counted (fuel : nat) self pair granularity date_from date_to price
    from_date to_date (n : Z) (w : World T) :
  checks self pair granularity date_from date_to price = Ok (from_date, to_date) ->
  calculate_candles_between (strftime from_date) (strftime to_date) granularity
  = Ok n ->
  collect fuel self pair granularity date_from date_to price w
  = windows fuel self pair granularity price from_date to_date (n + 1) w.
Proof.
  intros Hc Hn. unfold collect_large_candle_data. now rewrite Hc, Hn.
Qed.

(** C6: once the checks of [collect_large_candle_data] have passed, a count
    that cannot be computed ends the run with [None]: one line is printed,
    no call of [fetch_candles] is made, no request is sent and no exception
    leaves; this is what happens when the start is not before the end.
    Otherwise the run goes on with the count of the calendar plus one. *)
Theorem collect_count_or_abort (fuel : nat) self pair granularity date_from
    date_to price from_date to_date (w : World T) :
  checks self pair granularity date_from date_to price = Ok (from_date, to_date) ->
  let counted :=
    calculate_candles_between (strftime from_date) (strftime to_date) granularity in
  let run := collect fuel self pair granularity date_from date_to price w in
  (forall e, counted = Raise e -> run = Some (Ok None, logged w ValueErrorLine)) /\
  (forall n, counted = Ok n ->
     run = windows fuel self pair granularity price from_date to_date (n + 1) w) /\
  (valid_datetime from_date = true -> valid_datetime to_date = true ->
     wall_seconds to_date <= wall_seconds from_date ->
     counted = Raise ValueError).
Proof.
  intros Hc counted run. subst counted run. repeat split.
  - intros e He. pose proof (calculate_candles_between_raises _ _ _ _ He) as ->.
    unfold collect_large_candle_data. rewrite Hc, He. reflexivity.
  - intros n Hn. now apply collect_counted.
  - intros V1 V2 Hle. rewrite calculate_candles_between_strftime by assumption.
    apply Z.leb_le in Hle. rewrite Hle.
    now destruct ((year from_date <? 1000) || (year to_date <? 1000)).
Qed.

(** The window of an iteration, from the outcome of its call. *)
Lemma get_candles_Ok self pair granularity price p_count start_date
    (w w1 : World T) (L : list Candle) :
  fetch self pair (strftime start_date) None granularity p_count price true w
  = (Ok L, w1) ->
  get_candles session_get parser_parse self pair granularity price p_count
    start_date w = (Ok (Some L), w1).
Proof. intros H. now rewrite get_candles_cases, H. Qed.

Lemma get_candles_handled self pair granularity price p_count start_date
    (w w1 : World T) (e : exn) :
  fetch self pair (strftime start_date) None granularity p_count price true w
  = (Raise e, w1) ->
  handled e = true ->
  get_candles session_get parser_parse self pair granularity price p_count
    start_date w = (Ok None, logged w1 (line_of e)).
Proof. intros H He. now rewrite get_candles_cases, H, He. Qed.

Lemma loop_body_step self pair granularity price to_date st (w w1 : World T)
    (L : list Candle) (c : Candle) (d : datetime) (stop : bool) :
  get_candles session_get parser_parse self pair granularity price
    (Z.min (count st) CANDLE_COUNT) (from_date st)
    (logged w (ProgressLine pair (progress st))) = (Ok (Some L), w1) ->
  last_candle (candles st ++ L) = Ok c ->
  parser_parse (time c) = Ok d ->
  dt_ge d to_date = Ok stop ->
  loop_body session_get parser_parse self pair granularity price to_date st w
  = (Ok ((if stop then Break else Continue) (advanced st L d)), w1).
Proof.
  intros Hg Hc Hd Hs.
  unfold loop_body, bind, print, lift, ret.
  fold (logged w (ProgressLine pair (progress st))).
  rewrite Hg. cbn [extend]. rewrite Hc, Hd, Hs. destruct stop; reflexivity.
Qed.

Lemma loop_body_failed self pair granularity price to_date st (w w1 : World T) :
  get_candles session_get parser_parse self pair granularity price
    (Z.min (count st) CANDLE_COUNT) (from_date st)
    (logged w (ProgressLine pair (progress st))) = (Ok None, w1) ->
  loop_body session_get parser_parse self pair granularity price to_date st w
  = (Raise TypeError, w1).
Proof.
  intros Hg. unfold loop_body, bind, print, lift, ret.
  fold (logged w (ProgressLine pair (progress st))).
  now rewrite Hg.
Qed.

Lemma iterations_large (n : Z) : CANDLE_COUNT < n -> (2 <= iterations n)%nat.
Proof.
  intros H. assert (H0 : 0 < CANDLE_COUNT) by reflexivity.
  rewrite iterations_step by lia.
  rewrite Z.min_r by lia.
  rewrite iterations_step by lia. lia.
Qed.

(** The single window of a short range. *)
Lemma collect_windows_single (fuel : nat) self pair granularity price from_date
    to_date (total : Z) (w : World T) :
  total <= CANDLE_COUNT ->
  exists r w',
    windows fuel self pair granularity price from_date to_date total w
    = Some (r, w') /\
    calls w' = (calls w ++ [mkFetchCall pair (strftime from_date) None granularity
                              total price true])%list.
Proof.
  intros Ht. unfold collect_windows. apply Z.leb_le in Ht. rewrite Ht.
  pose proof (get_candles_calls T session_get parser_parse self pair granularity
                price total from_date w) as Hc.
  unfold bind, lift, ret.
  destruct (get_candles _ _ _ _ _ _ _ _ w) as [[r|e] w1]; cbn [snd] in Hc.
  - destruct (extend [] r); eauto.
  - eauto.
Qed.

(** The loop of a long range: it ends, and its calls begin with a window of
    [CANDLE_COUNT] candles at the start date.  What follows depends on the
    comparison of the date of the last candle with the end date. *)
Lemma collect_windows_loop (fuel : nat) self pair granularity price from_date
    to_date (total : Z) (w : World T) :
  CANDLE_COUNT < total -> (iterations total <= fuel)%nat ->
  exists r w' rest,
    windows fuel self pair granularity price from_date to_date total w
    = Some (r, w') /\
    calls w' = (calls w ++ mkFetchCall pair (strftime from_date) None granularity
                             CANDLE_COUNT price true :: rest)%list /\
    (forall L c d w1,
       fetch self pair (strftime from_date) None granularity CANDLE_COUNT price
         true (logged w (ProgressLine pair 0)) = (Ok L, w1) ->
       last_candle L = Ok c ->
       parser_parse (time c) = Ok d ->
       (dt_ge d to_date = Ok false ->
        exists rest',
          rest = mkFetchCall pair (strftime d) None granularity
                   (Z.min (total - CANDLE_COUNT) CANDLE_COUNT) price true :: rest') /\
       (dt_ge d to_date = Ok true ->
        rest = [] /\ r = Ok (Some L) /\ w' = w1)).
Proof.
  intros Ht Hf. unfold collect_windows.
  apply Z.leb_gt in Ht as Hb. rewrite Hb.
  destruct (while_loop_total T session_get parser_parse self pair granularity
              price to_date fuel (mkLoopState total from_date [] 0) w Hf)
    as [[r w'] Hl].
  rewrite Hl.
  destruct (while_loop_calls T session_get parser_parse self pair granularity
              price to_date fuel (mkLoopState total from_date [] 0) w w' r Hl)
    as (cs & Hcs & Hfirst).
  destruct Hfirst as [rest ->]; [cbn; unfold CANDLE_COUNT in *; lia|].
  unfold Collector.window_call in Hcs. cbn [count Collector.from_date] in Hcs.
  rewrite Z.min_r in Hcs by lia.
  exists (match r with Ok st => Ok (Some (candles st)) | Raise e => Raise e end),
         w', rest.
  split; [destruct r; reflexivity|]. split; [exact Hcs|].
  intros L c d w1 HL Hc Hd.
  pose proof (iterations_large total Ht) as H2.
  destruct fuel as [|fuel]; [lia|].
  rewrite while_loop_S in Hl.
  replace (count (mkLoopState total from_date [] 0) >? 0) with true in Hl
    by (symmetry; apply Z.gtb_lt; cbn; unfold CANDLE_COUNT in *; lia).
  pose proof (get_candles_calls T session_get parser_parse self pair granularity
                price CANDLE_COUNT from_date (logged w (ProgressLine pair 0))) as Hw1.
  rewrite (get_candles_Ok _ _ _ _ _ _ _ _ _ HL) in Hw1. cbn [snd logged calls] in Hw1.
  assert (Hbody : forall stop, dt_ge d to_date = Ok stop ->
            loop_body session_get parser_parse self pair granularity price to_date
              (mkLoopState total from_date [] 0) w
            = (Ok ((if stop then Break else Continue)
                     (advanced (mkLoopState total from_date [] 0) L d)), w1)).
  { intros stop Hs. apply (loop_body_step _ _ _ _ _ _ _ _ L c d stop);
      try assumption.
    cbn [count Collector.from_date progress]. rewrite Z.min_r by lia.
    now apply get_candles_Ok. }
  split; intros Hs; rewrite (Hbody _ Hs) in Hl.
  - apply while_loop_calls in Hl as (cs' & Hcs' & Hnext).
    destruct Hnext as [rest' ->]; [cbn; rewrite Z.min_r; lia|].
    exists rest'.
    rewrite Hw1, <- app_assoc in Hcs'. cbn [app] in Hcs'.
    rewrite Hcs in Hcs'. apply app_inv_head in Hcs'.
    injection Hcs' as ->. unfold Collector.window_call.
    cbn [count Collector.from_date advanced].
    rewrite (Z.min_r total) by lia. reflexivity.
  - injection Hl as <- <-. rewrite Hw1 in Hcs.
    apply app_inv_head in Hcs. injection Hcs as <-.
    repeat split; reflexivity.
Qed.

(** C1, as the program has it: when the calendar gives the count [n], the
    run asks for [n + 1] candles.  If that is at most [CANDLE_COUNT] (so
    for exactly [CANDLE_COUNT] too) there is exactly one call of
    [fetch_candles]: at the start date, by count, for [n + 1] candles.  If it
    is more, the first call asks for [CANDLE_COUNT] candles at the start
    date.  When that window is not empty and the date of its last candle
    compares as before the end date ([from_date >= to_date] is false), a
    second call follows, at that date and for what is left of the count, up
    to [CANDLE_COUNT]; when it compares as at or after the end date, the
    first call is the only one and the run returns its window. *)
Theorem collect_window_plan (fuel : nat) self pair granularity date_from date_to
    price from_date to_date (n : Z) (w : World T) :
  checks self pair granularity date_from date_to price = Ok (from_date, to_date) ->
  calculate_candles_between (strftime from_date) (strftime to_date) granularity
  = Ok n ->
  let run := collect fuel self pair granularity date_from date_to price w in
  let call count start :=
    mkFetchCall pair (strftime start) None granularity count price true in
  (n + 1 <= CANDLE_COUNT ->
     exists r w',
       run = Some (r, w') /\
       calls w' = (calls w ++ [call (n + 1) from_date])%list) /\
  (CANDLE_COUNT < n + 1 -> (iterations (n + 1) <= fuel)%nat ->
     exists r w' rest,
       run = Some (r, w') /\
       calls w' = (calls w ++ call CANDLE_COUNT from_date :: rest)%list /\
       (forall L c d w1,
          fetch self pair (strftime from_date) None granularity CANDLE_COUNT price
            true (logged w (ProgressLine pair 0)) = (Ok L, w1) ->
          last_candle L = Ok c ->
          parser_parse (time c) = Ok d ->
          (dt_ge d to_date = Ok false ->
           exists rest',
             rest = call (Z.min (n + 1 - CANDLE_COUNT) CANDLE_COUNT) d :: rest') /\
          (dt_ge d to_date = Ok true ->
           rest = [] /\ r = Ok (Some L) /\ w' = w1))).
Proof.
  intros Hc Hn run call. subst run call.
  rewrite (collect_counted fuel _ _ _ _ _ _ _ _ n w Hc Hn).
  split.
  - intros Ht. now apply collect_windows_single.
  - intros Ht Hf. now apply collect_windows_loop.
Qed.

(** A window that fails with one of the three exceptions of the program is
    answered by [None], which [candles.extend] refuses: the run leaves with
    [TypeError], one failure line printed. *)
Lemma collect_failed_window (fuel : nat) self pair granularity date_from date_to
    price from_date to_date (n : Z) (e : exn) (w w1 : World T) :
  checks self pair granularity date_from date_to price = Ok (from_date, to_date) ->
  calculate_candles_between (strftime from_date) (strftime to_date) granularity
  = Ok n ->
  fetch self pair (strftime from_date) None granularity
    (Z.min (n + 1) CANDLE_COUNT) price true
    (if n + 1 <=? CANDLE_COUNT then w else logged w (ProgressLine pair 0))
  = (Raise e, w1) ->
  handled e = true ->
  collect (S fuel) self pair granularity date_from date_to price w
  = Some (Raise TypeError, logged w1 (line_of e)).
Proof.
  intros Hc Hn Hf He.
  rewrite (collect_counted _ _ _ _ _ _ _ _ _ n w Hc Hn).
  unfold collect_windows.
  destruct (n + 1 <=? CANDLE_COUNT) eqn:E.
  - apply Z.leb_le in E. rewrite Z.min_l in Hf by lia.
    unfold bind. now rewrite (get_candles_handled _ _ _ _ _ _ _ _ _ Hf He).
  - apply Z.leb_gt in E. rewrite Z.min_r in Hf by lia.
    rewrite while_loop_S. cbn [count].
    replace (n + 1 >? 0) with true
      by (symmetry; apply Z.gtb_lt; unfold CANDLE_COUNT in *; lia).
    rewrite (loop_body_failed self pair granularity price to_date _ w
               (logged w1 (line_of e))); [reflexivity|].
    cbn [count Collector.from_date progress]. rewrite Z.min_r by lia.
    now apply get_candles_handled.
Qed.

(** The run ends, whatever the session and the parser do. *)
Lemma collect_total (extra : nat) self pair granularity date_from date_to price
    (w : World T) :
  exists bound r,
    collect (bound + extra) self pair granularity date_from date_to price w
    = Some r.
Proof.
  unfold collect_large_candle_data.
  destruct (checks self pair granularity date_from date_to price)
    as [[from_date to_date]|e]; [|exists O; eauto].
  destruct (calculate_candles_between _ _ _) as [n|e];
    [|exists O; destruct e; eauto].
  exists (iterations (n + 1)). unfold collect_windows.
  destruct (n + 1 <=? CANDLE_COUNT); [eauto|].
  destruct (while_loop_total T session_get parser_parse self pair granularity
              price to_date (iterations (n + 1) + extra)
              (mkLoopState (n + 1) from_date [] 0) w) as [[r w'] ->];
    [cbn [count]; lia|].
  destruct r; eauto.
Qed.

End CollectClaims.

(** C4, as the program has it: the loop takes [min(count, CANDLE_COUNT)] off
    a positive count at every iteration, so from any state, with any session
    and any parser, it has left after [iterations (count st)] iterations;
    and every run of [collect_large_candle_data] ends. *)
Theorem window_loop_terminates (T : Type)
    (session_get : T -> Request -> pyresult Response * T)
    (parser_parse : string -> pyresult datetime) :
  (forall self pair granularity price to_date st (w : World T) (extra : nat),
     exists r,
       while_loop session_get parser_parse self pair granularity price to_date
         (iterations (count st) + extra) st w = Some r) /\
  (forall self pair granularity date_from date_to price (w : World T),
     exists bound, forall extra : nat,
       exists r,
         collect_large_candle_data session_get parser_parse (bound + extra) self
           pair granularity date_from date_to price w = Some r).
Proof.
  split.
  - intros. apply while_loop_total. lia.
  - intros.
    destruct (collect_total T session_get parser_parse O self pair granularity
                date_from date_to price w) as (bound & r & Hr).
    exists bound. intros extra. exists r.
    revert Hr. rewrite Nat.add_0_r. unfold collect_large_candle_data.
    destruct (collect_checks _ _ _ _ _ _ _) as [[from_date to_date]|e]; [|auto].
    destruct (calculate_candles_between _ _ _) as [n|e]; [|auto].
    unfold collect_windows. destruct (n + 1 <=? CANDLE_COUNT); [auto|].
    destruct (while_loop _ _ _ _ _ _ _ bound _ w) as [p|] eqn:E; [|discriminate].
    intros H.
    rewrite (while_loop_fuel_le T session_get parser_parse self pair granularity
               price to_date bound (bound + extra) _ w p ltac:(lia) E).
    exact H.
Qed.

(** No input, session and parser keep the loop, or a run, from ending. *)
Lemma window_loop_never_diverges :
  ~ (exists (T : Type) (session_get : T -> Request -> pyresult Response * T)
       (parser_parse : string -> pyresult datetime)
       self pair granularity price to_date st (w : World T),
       forall fuel,
         while_loop session_get parser_parse self pair granularity price to_date
           fuel st w = None) /\
  ~ (exists (T : Type) (session_get : T -> Request -> pyresult Response * T)
       (parser_parse : string -> pyresult datetime)
       self pair granularity date_from date_to price (w : World T),
       forall fuel,
         collect_large_candle_data session_get parser_parse fuel self pair
           granularity date_from date_to price w = None).
Proof.
  split.
  - intros (T & session_get & parser_parse & self & pair & granularity & price
            & to_date & st & w & H).
    destruct (while_loop_total T session_get parser_parse self pair granularity
                price to_date (iterations (count st)) st w (le_n _)) as [r Hr].
    rewrite H in Hr. discriminate.
  - intros (T & session_get & parser_parse & self & pair & granularity
            & date_from & date_to & price & w & H).
    destruct (collect_total T session_get parser_parse O self pair granularity
                date_from date_to price w) as (bound & r & Hr).
    rewrite H in Hr. discriminate.
Qed.

(** ** Runs in the concrete environment *)

(** A range of exactly 4000 hourly candles is one call.  A range of 4001 is
    two calls when the first window ends before the end date, and one call,
    whose window is returned, when it reaches the end date. *)
Lemma collect_window_plan_witness :
  (exists r w',
     collect_large_candle_data scripted iso_parse 0 collector "EUR_USD" "H1"
       "2020-01-01T00:00:00Z" "2020-06-15T15:00:00Z" "MBA" (fresh []) = Some (r, w') /\
     calls w' = [mkFetchCall "EUR_USD" "2020-01-01T00:00:00Z" None "H1" 4000 "MBA" true]) /\
  (exists r w' rest,
     collect_large_candle_data scripted iso_parse 2 collector "EUR_USD" "H1"
       "2020-01-01T00:00:00Z" "2020-06-15T16:00:00Z" "MBA"
       (fresh [mkResponse true "" (Some [candle_at "2020-01-01T00:00:00Z";
                                          candle_at "2020-03-01T00:00:00Z"])])
     = Some (r, w') /\
     calls w'
     = mkFetchCall "EUR_USD" "2020-01-01T00:00:00Z" None "H1" 4000 "MBA" true
       :: mkFetchCall "EUR_USD" "2020-03-01T00:00:00Z" None "H1" 1 "MBA" true
       :: rest) /\
  (exists w',
     collect_large_candle_data scripted iso_parse 2 collector "EUR_USD" "H1"
       "2020-01-01T00:00:00Z" "2020-06-15T16:00:00Z" "MBA"
       (fresh [mkResponse true "" (Some [candle_at "2020-01-01T00:00:00Z";
                                          candle_at "2020-06-15T16:00:00Z"])])
     = Some (Ok (Some [candle_at "2020-01-01T00:00:00Z";
                       candle_at "2020-06-15T16:00:00Z"]), w') /\
     calls w'
     = [mkFetchCall "EUR_USD" "2020-01-01T00:00:00Z" None "H1" 4000 "MBA" true]).
Proof.
  split; [|split].
  - destruct (collect_window_plan (list Response) scripted iso_parse 0 collector
                "EUR_USD" "H1" "2020-01-01T00:00:00Z" "2020-06-15T15:00:00Z" "MBA"
                (mkDatetime 2020 1 1 0 0 0 (Some 0))
                (mkDatetime 2020 6 15 15 0 0 (Some 0)) 3999 (fresh []))
      as [H _].
    + vm_compute; reflexivity.
    + vm_compute; reflexivity.
    + apply H. vm_compute. discriminate.
  - destruct (collect_window_plan (list Response) scripted iso_parse 2 collector
                "EUR_USD" "H1" "2020-01-01T00:00:00Z" "2020-06-15T16:00:00Z" "MBA"
                (mkDatetime 2020 1 1 0 0 0 (Some 0))
                (mkDatetime 2020 6 15 16 0 0 (Some 0)) 4000
                (fresh [mkResponse true "" (Some [candle_at "2020-01-01T00:00:00Z";
                                                   candle_at "2020-03-01T00:00:00Z"])]))
      as [_ H].
    + vm_compute; reflexivity.
    + vm_compute; reflexivity.
    + destruct H as (r & w' & rest & Hrun & Hcalls & Hnext).
      * vm_compute; reflexivity.
      * vm_compute. apply le_n.
      * destruct (Hnext [candle_at "2020-01-01T00:00:00Z";
                         candle_at "2020-03-01T00:00:00Z"]
                    (candle_at "2020-03-01T00:00:00Z")
                    (mkDatetime 2020 3 1 0 0 0 (Some 0))
                    (snd (fetch_candles scripted iso_parse collector "EUR_USD"
                            "2020-01-01T00:00:00Z" None "H1" 4000 "MBA" true
                            (logged (fresh [mkResponse true "" (Some [candle_at "2020-01-01T00:00:00Z";
                                                   candle_at "2020-03-01T00:00:00Z"])])
                               (ProgressLine "EUR_USD" 0)))))
          as [Hsecond _]; try (vm_compute; reflexivity).
        destruct Hsecond as [rest' ->]; [vm_compute; reflexivity|].
        exists r, w', rest'. split; [exact Hrun | exact Hcalls].
  - destruct (collect_window_plan (list Response) scripted iso_parse 2 collector
                "EUR_USD" "H1" "2020-01-01T00:00:00Z" "2020-06-15T16:00:00Z" "MBA"
                (mkDatetime 2020 1 1 0 0 0 (Some 0))
                (mkDatetime 2020 6 15 16 0 0 (Some 0)) 4000
                (fresh [mkResponse true "" (Some [candle_at "2020-01-01T00:00:00Z";
                                                   candle_at "2020-06-15T16:00:00Z"])]))
      as [_ H].
    + vm_compute; reflexivity.
    + vm_compute; reflexivity.
    + destruct H as (r & w' & rest & Hrun & Hcalls & Hnext).
      * vm_compute; reflexivity.
      * vm_compute. apply le_n.
      * destruct (Hnext [candle_at "2020-01-01T00:00:00Z";
                         candle_at "2020-06-15T16:00:00Z"]
                    (candle_at "2020-06-15T16:00:00Z")
                    (mkDatetime 2020 6 15 16 0 0 (Some 0))
                    (snd (fetch_candles scripted iso_parse collector "EUR_USD"
                            "2020-01-01T00:00:00Z" None "H1" 4000 "MBA" true
                            (logged (fresh [mkResponse true "" (Some [candle_at "2020-01-01T00:00:00Z";
                                                   candle_at "2020-06-15T16:00:00Z"])])
                               (ProgressLine "EUR_USD" 0)))))
          as [_ Hstop]; try (vm_compute; reflexivity).
        destruct Hstop as (-> & -> & _); [vm_compute; reflexivity|].
        exists w'. split; [exact Hrun | exact Hcalls].
Defined.

(** A range of 4001 hourly candles whose first window reaches the end date:
    the loop is left after one call. *)
Lemma collect_4001_candles_one_call :
  calculate_candles_between "2020-01-01T00:00:00Z" "2020-06-15T16:00:00Z" "H1"
  = Ok 4000 /\
  exists w',
    collect_large_candle_data scripted iso_parse 2 collector "EUR_USD" "H1"
      "2020-01-01T00:00:00Z" "2020-06-15T16:00:00Z" "MBA"
      (fresh [mkResponse true "" (Some [candle_at "2020-01-01T00:00:00Z";
                                         candle_at "2020-06-15T16:00:00Z"])])
    = Some (Ok (Some [candle_at "2020-01-01T00:00:00Z";
                      candle_at "2020-06-15T16:00:00Z"]), w') /\
    calls w' = [mkFetchCall "EUR_USD" "2020-01-01T00:00:00Z" None "H1" 4000 "MBA" true].
Proof.
  split; [vm_compute; reflexivity|].
  eexists. split; vm_compute; reflexivity.
Qed.

(** A granularity of the fetch list that the calendar does not know: the
    count cannot be computed and the run ends with [None], nothing called. *)
Lemma collect_M15_aborts :
  collect_large_candle_data scripted iso_parse 0 collector "EUR_USD" "M15"
    "2020-01-01T00:00:00Z" "2020-01-02T00:00:00Z" "MBA" (fresh [])
  = Some (Ok None, mkWorld [] [] [] [ValueErrorLine]).
Proof. vm_compute. reflexivity. Qed.

(** A start that is not before the end: the run ends with [None], one line
    printed, nothing called and nothing sent. *)
Lemma collect_count_or_abort_witness :
  collect_large_candle_data scripted iso_parse 0 collector "EUR_USD" "H1"
    "2020-01-02" "2020-01-01" "MBA" (fresh [])
  = Some (Ok None, mkWorld [] [] [] [ValueErrorLine]).
Proof.
  destruct (collect_count_or_abort (list Response) scripted iso_parse 0 collector
              "EUR_USD" "H1" "2020-01-02" "2020-01-01" "MBA"
              (mkDatetime 2020 1 2 0 0 0 None) (mkDatetime 2020 1 1 0 0 0 None)
              (fresh []))
    as (Habort & _ & Hrange).
  - vm_compute; reflexivity.
  - rewrite (Habort ValueError).
    + reflexivity.
    + apply Hrange; vm_compute; [reflexivity | reflexivity | discriminate].
Defined.

(** C3: every request is refused.  [fetch_candles] raises [RequestError],
    [get_candles] prints one line and answers [None], and the run leaves with
    [TypeError]: in the single window of a short range, and in the first
    iteration of the loop of a long one. *)
Theorem collect_refused_window_raises :
  collect_large_candle_data scripted iso_parse 1 collector "EUR_USD" "H1"
    "2020-01-01T00:00:00Z" "2020-01-02T00:00:00Z" "MBA" (fresh [])
  = Some (Raise TypeError,
          mkWorld []
            [the_request collector "EUR_USD" "H1" "MBA" "2020-01-01T00:00:00Z"
               None 25 true]
            [mkFetchCall "EUR_USD" "2020-01-01T00:00:00Z" None "H1" 25 "MBA" true]
            [RequestFailedLine (RequestError refusal)]) /\
  collect_large_candle_data scripted iso_parse 3 collector "EUR_USD" "H1"
    "2020-01-01T00:00:00Z" "2021-01-01T00:00:00Z" "MBA" (fresh [])
  = Some (Raise TypeError,
          mkWorld []
            [the_request collector "EUR_USD" "H1" "MBA" "2020-01-01T00:00:00Z"
               None 4000 true]
            [mkFetchCall "EUR_USD" "2020-01-01T00:00:00Z" None "H1" 4000 "MBA" true]
            [ProgressLine "EUR_USD" 0; RequestFailedLine (RequestError refusal)]).
Proof.
  split; vm_compute; reflexivity.
Qed.

(** ** The order of the collected series *)

Section SeriesFacts.

Variable parser_parse : string -> pyresult datetime.

Local Abbreviation stamp := (Collector.stamp parser_parse).
Local Abbreviation ascending_from := (Collector.ascending_from parser_parse).
Local Abbreviation ascending := (Collector.ascending parser_parse).
Local Abbreviation utc_times := (Collector.utc_times parser_parse).

Lemma ascending_from_cons (lo : Z) (c : Candle) (L : list Candle) :
  ascending_from lo (c :: L) = true <->
  exists z, stamp c = Some z /\ lo <= z /\ ascending_from z L = true.
Proof.
  cbn [Collector.ascending_from]. destruct (stamp c) as [z|]; split.
  - intros H. apply andb_true_iff in H as [H1 H2]. apply Z.leb_le in H1. eauto.
  - intros (z' & [= <-] & H1 & H2). apply andb_true_iff.
    split; [now apply Z.leb_le | exact H2].
  - discriminate.
  - intros (z' & [=] & _).
Qed.

Lemma ascending_from_ascending (lo : Z) (L : list Candle) :
  ascending_from lo L = true -> ascending L = true.
Proof.
  destruct L as [|c L]; [reflexivity|].
  intros H. apply ascending_from_cons in H as (z & Hz & _ & H).
  unfold Collector.ascending. rewrite Hz. apply ascending_from_cons.
  exists z. repeat split; [exact Hz | lia | exact H].
Qed.

(** A series that ends with [c] goes on with a window that starts at or
    after the instant of [c]. *)
Lemma ascending_from_snoc (S0 : list Candle) (c : Candle) (z : Z)
    (L : list Candle) :
  stamp c = Some z -> ascending_from z L = true ->
  forall lo, ascending_from lo (S0 ++ [c]) = true ->
             ascending_from lo ((S0 ++ [c]) ++ L) = true.
Proof.
  intros Hz HL. induction S0 as [|a S0 IH]; intros lo H.
  - cbn [app] in *. apply ascending_from_cons in H as (z' & Hz' & Hlo & _).
    apply ascending_from_cons. exists z'. repeat split; try assumption.
    congruence.
  - cbn [app] in *. apply ascending_from_cons in H as (za & Hza & Hlo & H).
    apply ascending_from_cons. exists za. repeat split; auto.
Qed.

Lemma ascending_snoc (S0 : list Candle) (c : Candle) (z : Z) (L : list Candle) :
  stamp c = Some z -> ascending_from z L = true ->
  ascending (S0 ++ [c]) = true -> ascending ((S0 ++ [c]) ++ L) = true.
Proof.
  intros Hz HL H.
  destruct S0 as [|a S0]; cbn [app Collector.ascending] in *.
  - rewrite Hz in *. apply ascending_from_cons.
    exists z. repeat split; [exact Hz | lia | exact HL].
  - destruct (stamp a) as [za|]; [|discriminate].
    now apply (ascending_from_snoc (a :: S0) c z L).
Qed.

Lemma last_candle_Ok (S : list Candle) (c : Candle) :
  last_candle S = Ok c -> exists S0, S = (S0 ++ [c])%list.
Proof.
  unfold last_candle. destruct (rev S) as [|x l] eqn:E; [discriminate|].
  intros [= ->]. exists (rev l).
  rewrite <- (rev_involutive S), E. reflexivity.
Qed.

Lemma utc_times_app (S L : list Candle) :
  utc_times (S ++ L) = utc_times S && utc_times L.
Proof. apply forallb_app. Qed.

Lemma utc_times_In (L : list Candle) (c : Candle) (d : datetime) :
  utc_times L = true -> In c L -> parser_parse (time c) = Ok d ->
  instant d = wall_seconds d.
Proof.
  intros H Hin Hd. unfold Collector.utc_times in H.
  rewrite forallb_forall in H. specialize (H c Hin).
  rewrite Hd in H. now apply Z.eqb_eq.
Qed.

(** The boolean order, spelled out: every time is read by the parser, and
    the instants are sorted. *)
Lemma ascending_from_Sorted (L : list Candle) :
  forall lo, ascending_from lo L = true ->
    exists zs, Forall2 (fun c z => stamp c = Some z) L zs /\
               Sorted Z.le zs /\ HdRel Z.le lo zs.
Proof.
  induction L as [|c L IH]; intros lo H.
  - exists []. repeat constructor.
  - apply ascending_from_cons in H as (z & Hz & Hlo & H).
    destruct (IH z H) as (zs & HF & HS & HH).
    exists (z :: zs). repeat constructor; assumption.
Qed.

Lemma ascending_Sorted (L : list Candle) :
  ascending L = true ->
  exists zs, Forall2 (fun c z => stamp c = Some z) L zs /\ Sorted Z.le zs.
Proof.
  destruct L as [|c L]; [exists []; repeat constructor|].
  unfold Collector.ascending. destruct (stamp c) as [z|]; [|discriminate].
  intros H. destruct (ascending_from_Sorted _ _ H) as (zs & HF & HS & _). eauto.
Qed.

End SeriesFacts.

Section SeriesClaim.

Variable T : Type.
Variable session_get : T -> Request -> pyresult Response * T.
Variable parser_parse : string -> pyresult datetime.

Hypothesis parser_normal : reads_normal_form parser_parse.
Hypothesis session_chronological : chronological session_get parser_parse.
Hypothesis session_utc : timed_in_utc session_get parser_parse.

Local Abbreviation stamp := (Collector.stamp parser_parse).
Local Abbreviation ascending_from := (Collector.ascending_from parser_parse).
Local Abbreviation ascending := (Collector.ascending parser_parse).
Local Abbreviation utc_times := (Collector.utc_times parser_parse).
Local Abbreviation loop_invariant := (Collector.loop_invariant parser_parse).

(** A call by count that returns candles: the request it sent. *)
Lemma fetch_candles_Ok self pair start granularity p_count price
    (w w1 : World T) (L : list Candle) :
  fetch_candles session_get parser_parse self pair start None granularity p_count
    price true w = (Ok L, w1) ->
  exists ds res s',
    parser_parse start = Ok ds /\
    session_get (session w)
      (the_request self pair granularity price (strftime ds) None p_count true)
    = (Ok res, s') /\
    ok res = true /\ json_candles res = Some L.
Proof.
  unfold fetch_candles, bind, called, lift, raise, ret, get, normalise_dates.
  cbn [session sent calls printed].
  destruct (not_in_instruments self pair) as [[|]|]; try discriminate.
  destruct (negb (mem granularity granularity_list)); try discriminate.
  destruct (parser_parse start) as [ds|[]]; try discriminate.
  destruct (negb (mem price price_list)); try discriminate.
  destruct (negb (count_in_range p_count)); try discriminate.
  cbv beta zeta. cbn [session sent calls printed].
  fold (the_request self pair granularity price (strftime ds) None p_count true).
  destruct (session_get (session w) _) as [[res|e] s'] eqn:E; try discriminate.
  destruct (ok res) eqn:Hok; cbn [negb]; try discriminate.
  destruct (json_candles res) as [cs|] eqn:Hj; try discriminate.
  intros [= <- _]. exists ds, res, s'. auto.
Qed.

(** A window asked at a date the parser has given starts at or after its
    reading. *)
Lemma window_chronological self pair granularity price p_count start_date
    (w w1 : World T) (L : list Candle) :
  (exists s, parser_parse s = Ok start_date) ->
  get_candles session_get parser_parse self pair granularity price p_count
    start_date w = (Ok (Some L), w1) ->
  ascending_from (wall_seconds start_date) L = true /\ utc_times L = true.
Proof.
  intros [s Hread] H. rewrite get_candles_cases in H.
  destruct (fetch_candles _ _ _ _ _ _ _ _ _ _ w) as [[L'|e] w2] eqn:F.
  - injection H as -> ->.
    apply fetch_candles_Ok in F as (ds & res & s' & Hds & Hs & Hok & Hj).
    destruct (parser_normal _ _ Hread) as (d' & Hd' & Hw & _).
    rewrite Hds in Hd'. injection Hd' as <-.
    destruct (parser_normal _ _ Hds) as (da & Hda & _ & Hi).
    pose proof (session_chronological _ _ _ _ _ da Hs Hok Hj Hda) as Ha.
    rewrite Hi, Hw in Ha. split; [exact Ha|].
    exact (session_utc _ _ _ _ _ Hs Hok Hj).
  - destruct (handled e); discriminate.
Qed.

Section Loop.

Variable self : DataCollector.
Variables pair granularity price : string.
Variable to_date : datetime.

Lemma loop_body_invariant (st : LoopState) (w w' : World T) (L : list Candle)
    (c : Candle) (d : datetime) :
  loop_invariant st ->
  get_candles session_get parser_parse self pair granularity price
    (Z.min (count st) CANDLE_COUNT) (from_date st)
    (logged w (ProgressLine pair (progress st))) = (Ok (Some L), w') ->
  last_candle (candles st ++ L) = Ok c ->
  parser_parse (time c) = Ok d ->
  loop_invariant (advanced st L d).
Proof.
  intros [R A U C] Hg Hc Hd.
  destruct (window_chronological _ _ _ _ _ _ _ _ _ R Hg) as [HL HU].
  assert (U' : utc_times (candles st ++ L) = true)
    by (rewrite utc_times_app, U, HU; reflexivity).
  constructor; cbn [advanced Collector.from_date candles].
  - now exists (time c).
  - destruct C as [E | (c0 & Hc0 & Hz0)].
    + rewrite E. cbn [app]. exact (ascending_from_ascending _ _ _ HL).
    + apply last_candle_Ok in Hc0 as [S0 E]. rewrite E in *.
      exact (ascending_snoc _ _ _ _ _ Hz0 HL A).
  - exact U'.
  - right. exists c. split; [exact Hc|].
    unfold Collector.stamp. rewrite Hd. f_equal.
    apply (utc_times_In parser_parse (candles st ++ L) c d U'); [|exact Hd].
    apply last_candle_Ok in Hc as [S0 ->]. apply in_or_app. right. now left.
Qed.

Lemma while_loop_invariant (fuel : nat) :
  forall (st st' : LoopState) (w w' : World T),
    loop_invariant st ->
    while_loop session_get parser_parse self pair granularity price to_date fuel
      st w = Some (Ok st', w') ->
    loop_invariant st'.
Proof.
  induction fuel as [|fuel IH]; intros st st' w w' I.
  - rewrite while_loop_O. destruct (count st >? 0); [discriminate|].
    now intros [= <- _].
  - rewrite while_loop_S. destruct (count st >? 0); [|now intros [= <- _]].
    destruct (loop_body _ _ _ _ _ _ _ st w) as [[fl|e] w1] eqn:B; [|discriminate].
    apply loop_body_Ok in B as (L & c & d & stop & Hg & Hc & Hd & _ & ->).
    pose proof (loop_body_invariant st w w1 L c d I Hg Hc Hd) as I'.
    destruct stop.
    + now intros [= <- _].
    + now apply IH.
Qed.

End Loop.

Lemma collect_checks_Ok self pair granularity date_from date_to price
    (from_date to_date : datetime) :
  collect_checks parser_parse self pair granularity date_from date_to price
  = Ok (from_date, to_date) ->
  parser_parse date_from = Ok from_date /\ parser_parse date_to = Ok to_date.
Proof.
  unfold collect_checks.
  destruct (not_in_instruments self pair) as [[|]|]; try discriminate.
  destruct (negb (mem granularity granularity_list)); try discriminate.
  destruct (parser_parse date_from) as [fd|[]]; try discriminate.
  destruct (parser_parse date_to) as [td|[]]; try discriminate.
  destruct (negb (mem price price_list)); try discriminate.
  intros [= <- <-]. now split.
Qed.


End SeriesClaim.

(** *** The concrete parsers and sessions *)

Lemma iso_parse_Ok (s : string) (d : datetime) :
  iso_parse s = Ok d ->
  valid_datetime d = true /\ instant d = wall_seconds d.
Proof.
  unfold iso_parse.
  destruct (strptime s fmt_datetime) as [x|] eqn:E.
  - intros [= <-]. apply strptime_some in E as [V _].
    split; [exact V | unfold instant; cbn [tzinfo]; lia].
  - destruct (strptime s fmt_date) as [x|] eqn:E'; [|discriminate].
    intros [= <-]. apply strptime_some in E' as [V N].
    split; [exact V | now apply naive_instant].
Qed.

Lemma recent_parse_Ok (s : string) (d : datetime) :
  recent_parse s = Ok d ->
  valid_datetime d = true /\ 1000 <= year d /\ instant d = wall_seconds d.
Proof.
  unfold recent_parse. destruct (iso_parse s) as [x|] eqn:E; [|discriminate].
  destruct (Z.leb_spec 1000 (year x)); [|discriminate].
  intros [= <-]. apply iso_parse_Ok in E as [V I]. auto.
Qed.

(** What the two parsers make of the normal form of a valid date from the
    year 1000 on. *)
Lemma recent_parse_strftime (d : datetime) :
  valid_datetime d = true -> 1000 <= year d ->
  recent_parse (strftime d) = Ok (with_tzinfo d (Some 0)).
Proof.
  intros V Hy. unfold recent_parse, iso_parse.
  rewrite (strptime_strftime d V Hy). cbn [year with_tzinfo].
  apply Z.leb_le in Hy. now rewrite Hy.
Qed.

Lemma with_tzinfo_utc (d : datetime) :
  wall_seconds (with_tzinfo d (Some 0)) = wall_seconds d /\
  instant (with_tzinfo d (Some 0)) = wall_seconds d.
Proof.
  unfold instant, wall_seconds, toordinal, with_tzinfo.
  cbn [year month day hour minute second tzinfo]. lia.
Qed.

Lemma recent_parse_normal : reads_normal_form recent_parse.
Proof.
  intros s d H. apply recent_parse_Ok in H as (V & Hy & _).
  exists (with_tzinfo d (Some 0)).
  split; [now apply recent_parse_strftime | apply with_tzinfo_utc].
Qed.

Lemma echo_chronological : chronological echo recent_parse.
Proof.
  intros s req res s' L da Hs _ Hj Hda.
  unfold echo in Hs. injection Hs as <- _. cbn in Hj. injection Hj as <-.
  cbn [Collector.ascending_from]. unfold stamp. cbn [time candle_at].
  rewrite Hda, Z.leb_refl. reflexivity.
Qed.

Lemma echo_utc : timed_in_utc echo recent_parse.
Proof.
  intros s req res s' L Hs _ Hj.
  unfold echo in Hs. injection Hs as <- _. cbn in Hj. injection Hj as <-.
  cbn [Collector.utc_times forallb time candle_at].
  destruct (recent_parse (p_from (params req))) as [d|] eqn:E; [|reflexivity].
  apply recent_parse_Ok in E as (_ & _ & ->). now rewrite Z.eqb_refl.
Qed.


(** *** Candles timed with an offset *)

Lemma zone_parse_Ok (s : string) (d : datetime) :
  zone_parse s = Ok d -> valid_datetime d = true /\ 1000 <= year d.
Proof.
  unfold zone_parse. destruct (recent_parse s) as [x|] eqn:E.
  - intros [= <-]. apply recent_parse_Ok in E as (V & Hy & _). now split.
  - destruct (split_at 19 s) as [stamp zone].
    destruct (strptime _ fmt_datetime) as [x|] eqn:P; [|discriminate].
    destruct (read_offset zone) as [off|]; [|discriminate].
    destruct (Z.leb_spec 1000 (year x)); [|discriminate].
    intros [= <-]. apply strptime_some in P as [V _]. now split.
Qed.

Lemma zone_parse_normal : reads_normal_form zone_parse.
Proof.
  intros s d H. apply zone_parse_Ok in H as [V Hy].
  exists (with_tzinfo d (Some 0)). split; [|apply with_tzinfo_utc].
  unfold zone_parse. now rewrite (recent_parse_strftime d V Hy).
Qed.

Lemma seam_chronological : chronological seam zone_parse.
Proof.
  intros s req res s' L da Hs _ Hj Hda.
  unfold seam in Hs. injection Hs as <- _. cbn [json_candles] in Hj.
  injection Hj as <-.
  destruct (String.eqb_spec (p_from (params req)) "2020-01-01T00:00:00Z") as [E|_].
  - rewrite E in Hda. vm_compute in Hda. injection Hda as <-.
    vm_compute. reflexivity.
  - destruct (String.eqb_spec (p_from (params req)) "2020-03-01T00:00:00Z")
      as [E|_]; [|reflexivity].
    rewrite E in Hda. vm_compute in Hda. injection Hda as <-.
    vm_compute. reflexivity.
Qed.


(** * Further properties of the program *)

Import Bootstrap Footprint Scenario.

(** ** The calendar *)

Lemma delta_minutes_pos (granularity : string) (delta : Z) :
  delta_minutes granularity = Some delta -> 0 < delta.
Proof.
  unfold delta_minutes.
  repeat match goal with
         | |- (if ?b then _ else _) = _ -> _ => destruct b
         end; intros [= <-] || discriminate; lia.
Qed.

Lemma delta_minutes_unknown (granularity : string) :
  ~ In granularity calendar_granularities -> delta_minutes granularity = None.
Proof.
  unfold calendar_granularities, delta_minutes. cbn [In]. intros H.
  repeat match goal with
         | |- (if String.eqb ?a ?b then _ else _) = _ =>
             destruct (String.eqb_spec a b) as [->|_]; [exfalso; apply H; tauto|]
         end.
  reflexivity.
Qed.

(** What a returned count says of its arguments. *)
Lemma calculate_candles_between_Ok (from_date to_date granularity : string)
    (n : Z) :
  calculate_candles_between from_date to_date granularity = Ok n ->
  exists dt1 dt2 delta,
    strptime from_date (inferred_format from_date) = Some dt1 /\
    strptime to_date (inferred_format from_date) = Some dt2 /\
    instant dt1 < instant dt2 /\
    delta_minutes granularity = Some delta /\ 0 < delta /\
    n = (instant dt2 - instant dt1) / 60 / delta.
Proof.
  unfold calculate_candles_between.
  destruct (strptime from_date _) as [dt1|] eqn:E1; [|discriminate].
  destruct (strptime to_date _) as [dt2|] eqn:E2; [|discriminate].
  rewrite (dt_ge_parsed _ _ _ _ _ _ E1 E2).
  destruct (instant dt2 <=? instant dt1) eqn:L; [discriminate|].
  destruct (delta_minutes granularity) as [delta|] eqn:D; [|discriminate].
  intros [= <-]. apply Z.leb_gt in L.
  exists dt1, dt2, delta. repeat split; try assumption.
  - now apply delta_minutes_pos in D.
  - apply strptime_some in E1 as [_ N1]. apply strptime_some in E2 as [_ N2].
    rewrite total_seconds_wall, <- !naive_instant by assumption.
    now rewrite Z.quot_div_nonneg by lia.
Qed.

(** Whenever [calculate_candles_between] returns, both dates were read in
    the format inferred from the first, the first is before the second, and
    the count [n] is not negative: [n] candles fit between the two instants
    and [n + 1] do not. *)
Theorem calculate_candles_between_fits (from_date to_date granularity : string)
    (n : Z) :
  calculate_candles_between from_date to_date granularity = Ok n ->
  exists dt1 dt2 delta,
    strptime from_date (inferred_format from_date) = Some dt1 /\
    strptime to_date (inferred_format from_date) = Some dt2 /\
    delta_minutes granularity = Some delta /\
    instant dt1 < instant dt2 /\
    0 <= n /\
    n * (delta * 60) <= instant dt2 - instant dt1 < (n + 1) * (delta * 60).
Proof.
  intros H.
  apply calculate_candles_between_Ok in H
    as (dt1 & dt2 & delta & H1 & H2 & Hlt & Hd & Hpos & ->).
  exists dt1, dt2, delta. repeat split; try assumption.
  - apply Z.div_pos; [apply Z.div_pos; lia | exact Hpos].
  - rewrite Z.div_div by lia. rewrite (Z.mul_comm delta 60).
    pose proof (Z.mul_div_le (instant dt2 - instant dt1) (60 * delta) ltac:(lia)).
    lia.
  - rewrite Z.div_div by lia. rewrite (Z.mul_comm delta 60).
    pose proof (Z.mul_succ_div_gt (instant dt2 - instant dt1) (60 * delta) ltac:(lia)).
    lia.
Qed.

Lemma calculate_candles_between_fits_witness :
  exists dt1 dt2,
    strptime "2020-01-01T00:00:00Z" fmt_datetime = Some dt1 /\
    strptime "2020-01-01T09:59:59Z" fmt_datetime = Some dt2 /\
    2 * (240 * 60) <= instant dt2 - instant dt1 < 3 * (240 * 60).
Proof.
  destruct (calculate_candles_between_fits "2020-01-01T00:00:00Z"
              "2020-01-01T09:59:59Z" "H4" 2)
    as (dt1 & dt2 & delta & H1 & H2 & Hd & _ & _ & Hfit).
  - vm_compute. reflexivity.
  - injection Hd as <-. exists dt1, dt2. repeat split; assumption || apply Hfit.
Defined.

(** The same timestamp twice, whatever it is and whatever the granularity,
    is refused with [ValueError]. *)
Theorem calculate_candles_between_same (date granularity : string) :
  calculate_candles_between date date granularity = Raise ValueError.
Proof.
  unfold calculate_candles_between.
  destruct (strptime date _) as [dt1|] eqn:E1; [|reflexivity].
  rewrite (dt_ge_parsed _ _ _ _ _ _ E1 E1), Z.leb_refl. reflexivity.
Qed.

(** A granularity outside the eight of the calendar is refused with
    [ValueError] whatever the dates are; ["M15"], which [fetch_candles]
    accepts, is one. *)
Theorem calculate_candles_between_unknown_granularity
    (from_date to_date granularity : string) :
  ~ In granularity calendar_granularities ->
  calculate_candles_between from_date to_date granularity = Raise ValueError.
Proof.
  intros H. apply delta_minutes_unknown in H.
  destruct (calculate_candles_between from_date to_date granularity) as [n|e] eqn:E.
  - apply calculate_candles_between_Ok in E as (_ & _ & delta & _ & _ & _ & Hd & _).
    congruence.
  - now apply calculate_candles_between_raises in E as ->.
Qed.

Lemma calculate_candles_between_unknown_granularity_witness :
  In "M15" granularity_list /\
  calculate_candles_between "2020-01-01" "2020-01-02" "M15" = Raise ValueError.
Proof.
  split; [cbn; tauto|].
  apply calculate_candles_between_unknown_granularity.
  cbn. intros H.
  repeat (destruct H as [H | H]; [discriminate H|]). exact H.
Defined.

(** No string is read in both formats. *)
Lemma strptime_one_format (s : string) (d : datetime) :
  (strptime s fmt_date = Some d -> strptime s fmt_datetime = None) /\
  (strptime s fmt_datetime = Some d -> strptime s fmt_date = None).
Proof.
  unfold strptime, bindo.
  destruct (match_date s) as [[[[y m] dd] r]|]; [|split; discriminate].
  destruct r as [|a r]; split; try discriminate; try reflexivity.
Qed.

(** A date alone and a full timestamp do not mix: when each argument is read
    in a different one of the two formats, the call is refused with
    [ValueError], in whichever order they come. *)
Theorem calculate_candles_between_mixed_formats
    (from_date to_date granularity : string) (f1 f2 : date_format)
    (dt1 dt2 : datetime) :
  strptime from_date f1 = Some dt1 ->
  strptime to_date f2 = Some dt2 ->
  f1 <> f2 ->
  calculate_candles_between from_date to_date granularity = Raise ValueError.
Proof.
  intros H1 H2 Hne.
  destruct (calculate_candles_between from_date to_date granularity) as [n|e] eqn:E.
  - exfalso.
    apply calculate_candles_between_Ok in E as (x1 & x2 & _ & E1 & E2 & _).
    destruct (strptime_one_format from_date dt1) as [A1 B1].
    destruct (strptime_one_format to_date dt2) as [A2 B2].
    destruct (inferred_format from_date), f1, f2; try congruence;
      (rewrite (A1 H1) in E1 || rewrite (B1 H1) in E1
       || rewrite (A2 H2) in E2 || rewrite (B2 H2) in E2); discriminate.
  - now apply calculate_candles_between_raises in E as ->.
Qed.

Lemma calculate_candles_between_mixed_formats_witness :
  calculate_candles_between "2020-01-01" "2020-01-02T00:00:00Z" "H1"
  = Raise ValueError /\
  calculate_candles_between "2020-01-01T00:00:00Z" "2020-01-02" "H1"
  = Raise ValueError.
Proof.
  split.
  - apply (calculate_candles_between_mixed_formats _ _ _ fmt_date fmt_datetime
             (mkDatetime 2020 1 1 0 0 0 None) (mkDatetime 2020 1 2 0 0 0 None));
      [reflexivity | reflexivity | discriminate].
  - apply (calculate_candles_between_mixed_formats _ _ _ fmt_datetime fmt_date
             (mkDatetime 2020 1 1 0 0 0 None) (mkDatetime 2020 1 2 0 0 0 None));
      [reflexivity | reflexivity | discriminate].
Defined.

(** ** One call, one window: what they do to the world *)

Section Effects.

Variable T : Type.
Variable session_get : T -> Request -> pyresult Response * T.
Variable parser_parse : string -> pyresult datetime.

Local Abbreviation fetch := (fetch_candles session_get parser_parse).
Local Abbreviation window := (get_candles session_get parser_parse).

(** The two ways a call can leave the world: as on entry, or with the one
    request of a call that passed the checks. *)
Lemma fetch_candles_effects self pair_name start end_ granularity count price
    use_count (w : World T) :
  let c := mkFetchCall pair_name start end_ granularity count price use_count in
  let w' := snd (fetch self pair_name start end_ granularity count price
                   use_count w) in
  w' = entered w c \/
  exists start' end',
    normalise_dates parser_parse "fetch_candles" start end_ = Ok (start', end') /\
    count_in_range count = true /\
    let req := the_request self pair_name granularity price start' end' count
                 use_count in
    w' = requested w c req (snd (session_get (session w) req)).
Proof.
  intros c w'. subst c w'.
  unfold fetch_candles, bind, called, lift, raise, ret, get.
  cbn [session sent calls printed].
  destruct (not_in_instruments self pair_name) as [[|]|]; try (now left).
  destruct (negb (mem granularity granularity_list)); try (now left).
  destruct (normalise_dates _ _ _ _) as [[start' end']|]; try (now left).
  destruct (negb (mem price price_list)); try (now left).
  destruct (count_in_range count) eqn:Hc; cbn [negb]; try (now left).
  right. exists start', end'. split; [reflexivity|]. split; [reflexivity|].
  cbv beta zeta. cbn [session sent calls printed].
  fold (the_request self pair_name granularity price start' end' count use_count).
  destruct (session_get (session w) _) as [[res|e] s'];
    cbn [session sent calls printed snd]; [|reflexivity].
  destruct (negb (ok res)); [reflexivity|].
  destruct (json_candles res); reflexivity.
Qed.

(** However a call of [fetch_candles] ends, it prints nothing, and it either
    leaves the session and the requests sent as they were or has sent
    exactly one request. *)
Theorem fetch_candles_footprint self pair_name start end_ granularity count
    price use_count (w : World T) :
  let w' := snd (fetch self pair_name start end_ granularity count price
                   use_count w) in
  printed w' = printed w /\
  ((session w' = session w /\ sent w' = sent w) \/
   exists req, sent w' = (sent w ++ [req])%list /\
               session w' = snd (session_get (session w) req)).
Proof.
  intros w'. subst w'.
  destruct (fetch_candles_effects self pair_name start end_ granularity count
              price use_count w) as [-> | (start' & end' & _ & _ & ->)].
  - split; [reflexivity|]. left. now split.
  - split; [reflexivity|]. right. eexists. split; reflexivity.
Qed.

(** A failure of the transport is not turned into [RequestError]: for a call
    that passes the checks, the exception [session.get] raises is the
    exception of [fetch_candles], and unless it is one of the three of the
    program [get_candles] lets it through as well, printing nothing. *)
Theorem transport_failure_passes_through self pair granularity price p_count
    start_date start' (e : exn) (s' : T) (w : World T) :
  validated parser_parse self pair (strftime start_date) None granularity
    p_count price start' None ->
  session_get (session w)
    (the_request self pair granularity price start' None p_count true)
  = (Raise e, s') ->
  handled e = false ->
  fst (fetch self pair (strftime start_date) None granularity p_count price
         true w) = Raise e /\
  fst (window self pair granularity price p_count start_date w) = Raise e /\
  printed (snd (window self pair granularity price p_count start_date w))
  = printed w.
Proof.
  intros Hv Hs He.
  pose proof (fetch_candles_validated T session_get parser_parse _ _ _ _ _ _ _
                true _ _ w Hv) as F.
  cbv zeta in F. rewrite Hs in F. cbn [fst snd answer] in F.
  rewrite get_candles_cases, F, He. cbn [fst snd]. repeat split; reflexivity.
Qed.

(** One window: one call recorded, at most one request and at most one
    line, and a request it sends is anchored by a count within the cap. *)
Lemma get_candles_footprint self pair granularity price p_count start_date
    (w : World T) :
  exists s' reqs lines,
    snd (window self pair granularity price p_count start_date w)
    = mkWorld s' (sent w ++ reqs)%list
        (calls w ++ [mkFetchCall pair (strftime start_date) None granularity
                       p_count price true])%list
        (printed w ++ lines)%list /\
    forallb request_by_count reqs = true /\
    (List.length reqs <= 1)%nat /\ (List.length lines <= 1)%nat.
Proof.
  rewrite get_candles_cases.
  destruct (fetch_candles_effects self pair (strftime start_date) None granularity
              p_count price true w) as [E | (start' & end' & Hd & Hc & E)];
    cbv zeta in E.
  - destruct (fetch _ _ _ _ _ _ _ _ w) as [[L|e] w1]; cbn [snd] in E; subst w1.
    + exists (session w), [], []. rewrite !app_nil_r. repeat split; cbn; lia.
    + destruct (handled e); cbn [snd].
      * exists (session w), [], [line_of e]. rewrite !app_nil_r.
        repeat split; cbn; lia.
      * exists (session w), [], []. rewrite !app_nil_r. repeat split; cbn; lia.
  - assert (Hr : request_by_count
                   (the_request self pair granularity price start' end' p_count true)
                 = true).
    { unfold normalise_dates in Hd.
      destruct (parser_parse (strftime start_date)) as [ds|[]]; try discriminate.
      injection Hd as _ <-. exact Hc. }
    destruct (fetch _ _ _ _ _ _ _ _ w) as [[L|e] w1]; cbn [snd] in E; subst w1.
    + eexists _, [_], []. rewrite app_nil_r. cbn [forallb]. rewrite Hr.
      repeat split; cbn; lia.
    + destruct (handled e); cbn [snd].
      * eexists _, [_], [line_of e]. cbn [forallb]. rewrite Hr.
        repeat split; cbn; lia.
      * eexists _, [_], []. rewrite app_nil_r. cbn [forallb]. rewrite Hr.
        repeat split; cbn; lia.
Qed.

End Effects.

(** ** What a run asks for *)

Lemma iterations_nonpos (n : Z) : n <= 0 -> iterations n = O.
Proof.
  intros H. unfold iterations, CANDLE_COUNT.
  assert ((n + 4000 - 1) / 4000 <= 0) by (Z.div_mod_to_equations; lia).
  lia.
Qed.

Section RunFootprint.

Variable T : Type.
Variable session_get : T -> Request -> pyresult Response * T.
Variable parser_parse : string -> pyresult datetime.

Lemma stretch_nil pair granularity price (w w' : World T) :
  calls w' = calls w -> sent w' = sent w -> stretch pair granularity price w w' [].
Proof.
  intros Hc Hs. constructor.
  - now rewrite app_nil_r.
  - reflexivity.
  - exists []. rewrite app_nil_r. repeat split; [exact Hs | cbn; lia].
Qed.

Lemma window_call_ok_window pair granularity price (p_count : Z) (start : string) :
  1 <= p_count <= CANDLE_COUNT ->
  window_call_ok pair granularity price
    (mkFetchCall pair start None granularity p_count price true) = true.
Proof.
  intros H. unfold window_call_ok. cbn.
  rewrite !String.eqb_refl. apply count_in_range_spec in H. now rewrite H.
Qed.

(** One window, as a stretch of one call. *)
Lemma get_candles_stretch self pair granularity price p_count start_date
    (w0 w : World T) :
  calls w = calls w0 -> sent w = sent w0 ->
  1 <= p_count <= CANDLE_COUNT ->
  stretch pair granularity price w0
    (snd (get_candles session_get parser_parse self pair granularity price
            p_count start_date w))
    [mkFetchCall pair (strftime start_date) None granularity p_count price true].
Proof.
  intros Hc Hs Hp.
  destruct (get_candles_footprint T session_get parser_parse self pair granularity
              price p_count start_date w) as (s' & reqs & lines & -> & Hr & Hl & _).
  constructor; cbn [calls sent].
  - now rewrite Hc.
  - cbn [forallb]. now rewrite window_call_ok_window.
  - exists reqs. rewrite Hs. repeat split; [exact Hr | cbn; lia].
Qed.

Lemma stretch_app pair granularity price (w w1 w2 : World T)
    (cs1 cs2 : list FetchCall) :
  stretch pair granularity price w w1 cs1 ->
  stretch pair granularity price w1 w2 cs2 ->
  stretch pair granularity price w w2 (cs1 ++ cs2).
Proof.
  intros [C1 S1 (r1 & R1 & F1 & L1)] [C2 S2 (r2 & R2 & F2 & L2)].
  constructor.
  - now rewrite C2, C1, app_assoc.
  - now rewrite forallb_app, S1, S2.
  - exists (r1 ++ r2)%list. rewrite R2, R1, app_assoc, forallb_app, F1, F2.
    repeat split. rewrite !length_app. lia.
Qed.

Section Loop.

Variable self : DataCollector.
Variables pair granularity price : string.
Variable to_date : datetime.

(** The calls of the loop from the state [st]: within the shape and the
    cap, not more of them than [iterations (count st)], and asking in all
    for no more than the count. *)
Lemma while_loop_stretch (fuel : nat) :
  forall (st : LoopState) (w w' : World T) r,
    while_loop session_get parser_parse self pair granularity price to_date fuel
      st w = Some (r, w') ->
    exists cs,
      stretch pair granularity price w w' cs /\
      asked cs <= Z.max 0 (count st) /\
      (List.length cs <= iterations (count st))%nat.
Proof.
  induction fuel as [|fuel IH]; intros st w w' r.
  - rewrite while_loop_O. destruct (count st >? 0) eqn:E; [discriminate|].
    intros [= <- <-]. exists []. split; [now apply stretch_nil|]. cbn. lia.
  - rewrite while_loop_S. destruct (count st >? 0) eqn:E.
    + apply Z.gtb_lt in E.
      assert (Hmin : 1 <= Z.min (count st) CANDLE_COUNT <= CANDLE_COUNT)
        by (unfold CANDLE_COUNT; lia).
      pose proof (get_candles_stretch self pair granularity price _ (from_date st)
                    w (logged w (ProgressLine pair (progress st)))
                    eq_refl eq_refl Hmin) as S1.
      rewrite <- (loop_body_world T session_get parser_parse self pair granularity
                    price to_date) in S1.
      rewrite (iterations_step (count st)) by exact E.
      destruct (loop_body _ _ _ _ _ _ _ st w) as [[[st'|st']|e] w1] eqn:B;
        cbn [snd] in S1.
      * intros H. apply IH in H as (cs & S2 & Ha & Hl).
        apply loop_body_Ok in B as (L & c & d & stop & _ & _ & _ & _ & Hfl).
        destruct stop; [discriminate|]. injection Hfl as ->.
        cbn [count advanced] in *.
        eexists. split; [exact (stretch_app _ _ _ _ _ _ _ _ S1 S2)|].
        cbn [app asked fold_right a_count List.length]. fold (asked cs).
        split; lia.
      * intros [= <- <-]. eexists. split; [exact S1|]. cbn. lia.
      * intros [= <- <-]. eexists. split; [exact S1|]. cbn. lia.
    + intros [= <- <-]. exists []. split; [now apply stretch_nil|]. cbn. lia.
Qed.

End Loop.

(** The calls of a whole run. *)
Lemma collect_stretch (fuel : nat) self pair granularity date_from date_to price
    (w w' : World T) r :
  collect_large_candle_data session_get parser_parse fuel self pair granularity
    date_from date_to price w = Some (r, w') ->
  exists cs,
    stretch pair granularity price w w' cs /\
    (cs = [] \/
     exists from_date to_date n,
       collect_checks parser_parse self pair granularity date_from date_to price
       = Ok (from_date, to_date) /\
       calculate_candles_between (strftime from_date) (strftime to_date)
         granularity = Ok n /\
       asked cs <= n + 1 /\ (List.length cs <= Nat.max 1 (iterations (n + 1)))%nat).
Proof.
  unfold collect_large_candle_data.
  destruct (collect_checks _ _ _ _ _ _ _) as [[from_date to_date]|e] eqn:Hc.
  2:{ intros [= <- <-]. exists []. split; [now apply stretch_nil | now left]. }
  destruct (calculate_candles_between _ _ _) as [n|e] eqn:Hn.
  2:{ intros H. exists []. split; [|now left].
      destruct e; injection H as <- <-; now apply stretch_nil. }
  pose proof (calculate_candles_between_Ok _ _ _ _ Hn)
    as (dt1 & dt2 & delta & _ & _ & Hlt & _ & Hpos & Hq).
  assert (H0 : 0 <= n)
    by (subst n; apply Z.div_pos; [apply Z.div_pos; lia | exact Hpos]).
  unfold collect_windows. destruct (n + 1 <=? CANDLE_COUNT) eqn:E.
  - apply Z.leb_le in E. intros H.
    pose proof (get_candles_stretch self pair granularity price (n + 1) from_date
                  w w eq_refl eq_refl ltac:(lia)) as S1.
    assert (Hw : w' = snd (get_candles session_get parser_parse self pair
                             granularity price (n + 1) from_date w)).
    { unfold bind, lift, ret in H.
      destruct (get_candles _ _ _ _ _ _ _ _ w) as [[o|e] w1]; cbn [snd].
      - destruct (extend [] o); now injection H as _ <-.
      - now injection H as _ <-. }
    rewrite <- Hw in S1. eexists. split; [exact S1|]. right.
    exists from_date, to_date, n.
    split; [first [exact Hc | reflexivity]|].
    split; [first [exact Hn | reflexivity]|]. split.
    + cbn [asked fold_right a_count]. lia.
    + cbn [List.length]. apply Nat.le_max_l.
  - intros H.
    destruct (while_loop _ _ _ _ _ _ _ fuel _ w) as [[r1 w1]|] eqn:L;
      [|discriminate].
    assert (w1 = w') by (destruct r1; now injection H as _ <-). subst w1.
    apply while_loop_stretch in L as (cs & S1 & Ha & Hl). cbn [count] in *.
    exists cs. split; [exact S1|]. right.
    exists from_date, to_date, n.
    split; [first [exact Hc | reflexivity]|].
    split; [first [exact Hn | reflexivity]|]. split; lia.
Qed.

(** Whatever the session and the parser do, the calls of a run are all made
    by count, without an end date, for the pair, granularity and price of the
    run and for 1 to [CANDLE_COUNT] candles; every request the run sends
    carries such a count and no ["to"], and there are not more requests than
    calls. *)
Theorem collect_requests_capped (fuel : nat) self pair granularity date_from
    date_to price (w w' : World T) r :
  collect_large_candle_data session_get parser_parse fuel self pair granularity
    date_from date_to price w = Some (r, w') ->
  exists cs reqs,
    calls w' = (calls w ++ cs)%list /\
    sent w' = (sent w ++ reqs)%list /\
    forallb (window_call_ok pair granularity price) cs = true /\
    forallb request_by_count reqs = true /\
    (List.length reqs <= List.length cs)%nat.
Proof.
  intros H. apply collect_stretch in H as (cs & [C S (reqs & R & F & L)] & _).
  exists cs, reqs. repeat split; assumption.
Qed.

(** A run that asks for anything has a count [n + 1] from the calendar, and
    then its calls ask in all for no more than [n + 1] candles, in no more
    than [iterations (n + 1)] calls (one call when that is 0 or 1). *)
Theorem collect_asks_within_count (fuel : nat) self pair granularity date_from
    date_to price (w w' : World T) r :
  collect_large_candle_data session_get parser_parse fuel self pair granularity
    date_from date_to price w = Some (r, w') ->
  calls w' = calls w \/
  exists from_date to_date n cs,
    collect_checks parser_parse self pair granularity date_from date_to price
    = Ok (from_date, to_date) /\
    calculate_candles_between (strftime from_date) (strftime to_date) granularity
    = Ok n /\
    calls w' = (calls w ++ cs)%list /\
    asked cs <= n + 1 /\
    (List.length cs <= Nat.max 1 (iterations (n + 1)))%nat.
Proof.
  intros H. apply collect_stretch in H as (cs & [C _ _] & [-> | Hn]).
  - left. now rewrite C, app_nil_r.
  - right. destruct Hn as (from_date & to_date & n & Hc & Hn & Ha & Hl).
    exists from_date, to_date, n, cs. repeat split; assumption.
Qed.

End RunFootprint.

(** ** The checks of a run, and a collector without instruments *)

Section RunChecks.

Variable T : Type.
Variable session_get : T -> Request -> pyresult Response * T.
Variable parser_parse : string -> pyresult datetime.

Local Abbreviation fetch := (fetch_candles session_get parser_parse).
Local Abbreviation collect := (collect_large_candle_data session_get parser_parse).

(** [collect_large_candle_data] checks the pair, the granularity, the two
    dates and the price, in this order, before anything else: the first
    check that fails decides the exception, which names
    ["collect_large_candle_data"] and carries the offending value, and the
    world is left untouched.  A date the parser refuses leaves with the
    parser's own exception unless that is a [TypeError]. *)
Theorem collect_checks_in_order (fuel : nat) self pair granularity date_from
    date_to price known (w : World T) :
  instruments self = Some known ->
  let run := collect fuel self pair granularity date_from date_to price w in
  let refused a :=
    Some (Raise (InvalidFunctionArguments "collect_large_candle_data" a), w) in
  let date_failure (e : exn) :=
    match e with
    | TypeError =>
        InvalidFunctionArguments "collect_large_candle_data"
          (ArgDates date_from (Some date_to))
    | _ => e
    end in
  (~ In pair known -> run = refused (ArgStr pair)) /\
  (In pair known -> ~ In granularity granularity_list ->
     run = refused (ArgStr granularity)) /\
  (In pair known -> In granularity granularity_list ->
     forall e, parser_parse date_from = Raise e ->
     run = Some (Raise (date_failure e), w)) /\
  (In pair known -> In granularity granularity_list ->
     forall from_date e,
     parser_parse date_from = Ok from_date -> parser_parse date_to = Raise e ->
     run = Some (Raise (date_failure e), w)) /\
  (In pair known -> In granularity granularity_list ->
     forall from_date to_date,
     parser_parse date_from = Ok from_date -> parser_parse date_to = Ok to_date ->
     ~ In price price_list -> run = refused (ArgStr price)).
Proof.
  intros Hi run refused date_failure. subst run refused date_failure.
  unfold collect_large_candle_data, collect_checks, not_in_instruments.
  rewrite Hi.
  split; [|split; [|split; [|split]]].
  - intros Hk. apply mem_not_In in Hk. now rewrite Hk.
  - intros Hk Hg. apply mem_In in Hk. apply mem_not_In in Hg.
    now rewrite Hk, Hg.
  - intros Hk Hg e He. apply mem_In in Hk, Hg. rewrite Hk, Hg, He. cbn [negb].
    destruct e; reflexivity.
  - intros Hk Hg from_date e Hf He. apply mem_In in Hk, Hg.
    rewrite Hk, Hg, Hf, He. cbn [negb]. destruct e; reflexivity.
  - intros Hk Hg from_date to_date Hf Ht Hp. apply mem_In in Hk, Hg.
    apply mem_not_In in Hp. rewrite Hk, Hg, Hf, Ht, Hp. reflexivity.
Qed.

(** A collector without an instrument list (as [get_instruments_names]
    leaves it for an account with no instrument): every call of
    [fetch_candles] and every run of [collect_large_candle_data] ends at the
    membership test with [TypeError], whatever the arguments; nothing is
    sent or printed. *)
Theorem no_instruments_TypeError self :
  instruments self = None ->
  (forall pair_name start end_ granularity count price use_count (w : World T),
     fetch self pair_name start end_ granularity count price use_count w
     = (Raise TypeError,
        entered w (mkFetchCall pair_name start end_ granularity count price
                     use_count))) /\
  (forall fuel pair granularity date_from date_to price (w : World T),
     collect fuel self pair granularity date_from date_to price w
     = Some (Raise TypeError, w)).
Proof.
  intros Hi. split.
  - intros. unfold fetch_candles, bind, called, lift, not_in_instruments.
    rewrite Hi. reflexivity.
  - intros. unfold collect_large_candle_data, collect_checks, not_in_instruments.
    rewrite Hi. reflexivity.
Qed.

End RunChecks.

(** An unknown pair and an unrecognised end date, refused by a run. *)
Lemma collect_checks_in_order_witness :
  collect_large_candle_data scripted iso_parse 0 collector "XAU_USD" "H9"
    "2020-01-01" "tomorrow" "MBA" (fresh [])
  = Some (Raise (InvalidFunctionArguments "collect_large_candle_data"
                   (ArgStr "XAU_USD")), fresh []) /\
  collect_large_candle_data scripted iso_parse 0 collector "EUR_USD" "H1"
    "2020-01-01" "tomorrow" "MBA" (fresh [])
  = Some (Raise ValueError, fresh []).
Proof.
  split.
  - destruct (collect_checks_in_order (list Response) scripted iso_parse 0
                collector "XAU_USD" "H9" "2020-01-01" "tomorrow" "MBA"
                ["EUR_USD"; "GBP_USD"] (fresh []) eq_refl) as (H & _).
    apply H. cbn. intros [E | [E | []]]; discriminate E.
  - destruct (collect_checks_in_order (list Response) scripted iso_parse 0
                collector "EUR_USD" "H1" "2020-01-01" "tomorrow" "MBA"
                ["EUR_USD"; "GBP_USD"] (fresh []) eq_refl) as (_ & _ & _ & H & _).
    apply (H ltac:(cbn; tauto) ltac:(cbn; tauto)
             (mkDatetime 2020 1 1 0 0 0 None) ValueError);
      vm_compute; reflexivity.
Defined.

Lemma no_instruments_TypeError_witness :
  fst (fetch_candles scripted iso_parse (mkDataCollector "https://host/v3" None)
         "EUR_USD" "2020-01-01" None "H1" 10 "MBA" true (fresh []))
  = Raise TypeError.
Proof.
  destruct (no_instruments_TypeError (list Response) scripted iso_parse
              (mkDataCollector "https://host/v3" None) eq_refl) as [H _].
  now rewrite H.
Defined.

Lemma transport_failure_passes_through_witness :
  fst (get_candles unreachable iso_parse collector "EUR_USD" "H1" "MBA" 10
         (mkDatetime 2020 1 1 0 0 0 (Some 0)) (fresh tt))
  = Raise (OtherError "ConnectionError").
Proof.
  apply (transport_failure_passes_through unit unreachable iso_parse collector
           "EUR_USD" "H1" "MBA" 10 (mkDatetime 2020 1 1 0 0 0 (Some 0))
           "2020-01-01T00:00:00Z" (OtherError "ConnectionError") tt (fresh tt)).
  - constructor.
    + exists ["EUR_USD"; "GBP_USD"]. split; [reflexivity | cbn; tauto].
    + cbn; tauto.
    + vm_compute; reflexivity.
    + cbn; tauto.
    + unfold CANDLE_COUNT; lia.
  - reflexivity.
  - reflexivity.
Defined.

(** ** How a run goes, window by window *)

Lemma dt_ge_mixed (a b : datetime) :
  (tzinfo a = None <-> tzinfo b <> None) -> dt_ge a b = Raise TypeError.
Proof.
  unfold dt_ge. destruct (tzinfo a), (tzinfo b); intros [H1 H2];
    try reflexivity; exfalso.
  - assert (E : Some z = None) by (apply H2; discriminate). discriminate E.
  - now apply H1.
Qed.

Section Runs.

Variable T : Type.
Variable session_get : T -> Request -> pyresult Response * T.
Variable parser_parse : string -> pyresult datetime.

Local Abbreviation fetch := (fetch_candles session_get parser_parse).
Local Abbreviation collect := (collect_large_candle_data session_get parser_parse).
Local Abbreviation checks := (collect_checks parser_parse).

(** A range of more than [CANDLE_COUNT] candles: the run by its first
    iteration. *)
Lemma collect_long (fuel : nat) self pair granularity date_from date_to price
    from_date to_date (n : Z) (w : World T) :
  checks self pair granularity date_from date_to price = Ok (from_date, to_date) ->
  calculate_candles_between (strftime from_date) (strftime to_date) granularity
  = Ok n ->
  CANDLE_COUNT < n + 1 ->
  collect (S fuel) self pair granularity date_from date_to price w
  = match loop_body session_get parser_parse self pair granularity price to_date
            (mkLoopState (n + 1) from_date [] 0) w with
    | (Ok (Continue st), w1) =>
        match while_loop session_get parser_parse self pair granularity price
                to_date fuel st w1 with
        | None => None
        | Some (Ok st', w') => Some (Ok (Some (candles st')), w')
        | Some (Raise e, w') => Some (Raise e, w')
        end
    | (Ok (Break st), w1) => Some (Ok (Some (candles st)), w1)
    | (Raise e, w1) => Some (Raise e, w1)
    end.
Proof.
  intros Hc Hn Ht.
  rewrite (collect_counted T session_get parser_parse _ _ _ _ _ _ _ _ _ n w Hc Hn).
  unfold collect_windows. apply Z.leb_gt in Ht as Hb. rewrite Hb.
  rewrite while_loop_S. cbn [count].
  replace (n + 1 >? 0) with true
    by (symmetry; apply Z.gtb_lt; unfold CANDLE_COUNT in *; lia).
  destruct (loop_body _ _ _ _ _ _ _ _ w) as [[[st|st]|e] w1]; reflexivity.
Qed.

(** An iteration whose window is [L], up to the reading of the last
    candle. *)
Lemma loop_body_window self pair granularity price to_date st
    (w w1 : World T) (L : list Candle) :
  fetch self pair (strftime (from_date st)) None granularity
    (Z.min (count st) CANDLE_COUNT) price true
    (logged w (ProgressLine pair (progress st))) = (Ok L, w1) ->
  loop_body session_get parser_parse self pair granularity price to_date st w
  = match last_candle (candles st ++ L) with
    | Raise e => (Raise e, w1)
    | Ok c =>
        match parser_parse (time c) with
        | Raise e => (Raise e, w1)
        | Ok d =>
            match dt_ge d to_date with
            | Raise e => (Raise e, w1)
            | Ok stop => (Ok ((if stop then Break else Continue) (advanced st L d)), w1)
            end
        end
    end.
Proof.
  intros F. apply get_candles_Ok in F.
  unfold loop_body, bind, print, lift, ret.
  fold (logged w (ProgressLine pair (progress st))).
  rewrite F. cbn [extend].
  destruct (last_candle (candles st ++ L)) as [c|]; [|reflexivity].
  destruct (parser_parse (time c)) as [d|]; [|reflexivity].
  destruct (dt_ge d to_date) as [[|]|]; reflexivity.
Qed.

(** A range of at most [CANDLE_COUNT] candles whose one call succeeds: the
    run returns the list of the response as it is, the empty list
    included. *)
Theorem collect_short_returns_response (fuel : nat) self pair granularity
    date_from date_to price from_date to_date (n : Z) (L : list Candle)
    (w w1 : World T) :
  checks self pair granularity date_from date_to price = Ok (from_date, to_date) ->
  calculate_candles_between (strftime from_date) (strftime to_date) granularity
  = Ok n ->
  n + 1 <= CANDLE_COUNT ->
  fetch self pair (strftime from_date) None granularity (n + 1) price true w
  = (Ok L, w1) ->
  collect fuel self pair granularity date_from date_to price w
  = Some (Ok (Some L), w1).
Proof.
  intros Hc Hn Ht F.
  rewrite (collect_counted T session_get parser_parse _ _ _ _ _ _ _ _ _ n w Hc Hn).
  unfold collect_windows. apply Z.leb_le in Ht. rewrite Ht.
  unfold bind. now rewrite (get_candles_Ok T session_get parser_parse _ _ _ _ _ _ _ _ _ F).
Qed.

(** A long range whose first window comes back empty: [candles[-1]] on the
    empty list ends the run with [IndexError]. *)
Theorem collect_empty_first_window (fuel : nat) self pair granularity
    date_from date_to price from_date to_date (n : Z) (w w1 : World T) :
  checks self pair granularity date_from date_to price = Ok (from_date, to_date) ->
  calculate_candles_between (strftime from_date) (strftime to_date) granularity
  = Ok n ->
  CANDLE_COUNT < n + 1 ->
  fetch self pair (strftime from_date) None granularity CANDLE_COUNT price true
    (logged w (ProgressLine pair 0)) = (Ok [], w1) ->
  collect (S fuel) self pair granularity date_from date_to price w
  = Some (Raise IndexError, w1).
Proof.
  intros Hc Hn Ht F.
  rewrite (collect_long fuel _ _ _ _ _ _ _ _ n w Hc Hn Ht).
  rewrite (loop_body_window self pair granularity price to_date _ w w1 []).
  - reflexivity.
  - cbn [count Collector.from_date progress]. now rewrite Z.min_r by lia.
Qed.

(** A long range whose first window already reaches the end date: the loop
    is left at once and the run returns that window alone. *)
Theorem collect_early_exit (fuel : nat) self pair granularity date_from date_to
    price from_date to_date (n : Z) (L : list Candle) (c : Candle)
    (d : datetime) (w w1 : World T) :
  checks self pair granularity date_from date_to price = Ok (from_date, to_date) ->
  calculate_candles_between (strftime from_date) (strftime to_date) granularity
  = Ok n ->
  CANDLE_COUNT < n + 1 ->
  fetch self pair (strftime from_date) None granularity CANDLE_COUNT price true
    (logged w (ProgressLine pair 0)) = (Ok L, w1) ->
  last_candle L = Ok c ->
  parser_parse (time c) = Ok d ->
  dt_ge d to_date = Ok true ->
  collect (S fuel) self pair granularity date_from date_to price w
  = Some (Ok (Some L), w1).
Proof.
  intros Hc Hn Ht F Hl Hd Hs.
  rewrite (collect_long fuel _ _ _ _ _ _ _ _ n w Hc Hn Ht).
  rewrite (loop_body_window self pair granularity price to_date _ w w1 L).
  - cbn [candles app]. rewrite Hl, Hd, Hs. reflexivity.
  - cbn [count Collector.from_date progress]. now rewrite Z.min_r by lia.
Qed.

(** A long range where the end date is naive and the time of the last candle
    of the first window is read as an aware value, or the other way round:
    the comparison of the two ends the run with [TypeError], the window
    lost. *)
Theorem collect_naive_against_aware (fuel : nat) self pair granularity date_from
    date_to price from_date to_date (n : Z) (L : list Candle) (c : Candle)
    (d : datetime) (w w1 : World T) :
  checks self pair granularity date_from date_to price = Ok (from_date, to_date) ->
  calculate_candles_between (strftime from_date) (strftime to_date) granularity
  = Ok n ->
  CANDLE_COUNT < n + 1 ->
  fetch self pair (strftime from_date) None granularity CANDLE_COUNT price true
    (logged w (ProgressLine pair 0)) = (Ok L, w1) ->
  last_candle L = Ok c ->
  parser_parse (time c) = Ok d ->
  (tzinfo d = None <-> tzinfo to_date <> None) ->
  collect (S fuel) self pair granularity date_from date_to price w
  = Some (Raise TypeError, w1).
Proof.
  intros Hc Hn Ht F Hl Hd Hz.
  rewrite (collect_long fuel _ _ _ _ _ _ _ _ n w Hc Hn Ht).
  rewrite (loop_body_window self pair granularity price to_date _ w w1 L).
  - cbn [candles app]. rewrite Hl, Hd, (dt_ge_mixed _ _ Hz). reflexivity.
  - cbn [count Collector.from_date progress]. now rewrite Z.min_r by lia.
Qed.

(** The second iteration of a run of two windows, from the state the first
    one left. *)
Lemma second_window self pair granularity price to_date (fuel : nat)
    (rest : Z) (d1 : datetime) (L1 : list Candle) (p : Z) (w1 : World T) :
  0 < rest <= CANDLE_COUNT ->
  while_loop session_get parser_parse self pair granularity price to_date
    (S fuel) (mkLoopState rest d1 L1 p) w1
  = match loop_body session_get parser_parse self pair granularity price to_date
            (mkLoopState rest d1 L1 p) w1 with
    | (Ok (Continue st), w2) => Some (Ok st, w2)
    | (Ok (Break st), w2) => Some (Ok st, w2)
    | (Raise e, w2) => Some (Raise e, w2)
    end.
Proof.
  intros Hr. rewrite while_loop_S. cbn [count].
  replace (rest >? 0) with true by (symmetry; apply Z.gtb_lt; lia).
  destruct (loop_body _ _ _ _ _ _ _ _ w1) as [[[st|st]|e] w2] eqn:B;
    try reflexivity.
  apply loop_body_Ok in B as (L & c & d & stop & _ & _ & _ & _ & Hfl).
  destruct stop; [discriminate|]. injection Hfl as ->.
  destruct fuel; [rewrite while_loop_O | rewrite while_loop_S];
    cbn [count advanced]; rewrite Z.min_l by lia;
    rewrite Z.sub_diag; reflexivity.
Qed.

(** A range of more than [CANDLE_COUNT] and at most twice [CANDLE_COUNT]
    candles, both windows succeeding: the second call starts at the time of
    the last candle of the first window, asks for what is left of the
    count, and the run returns the two lists one after the other, whole:
    a candle both windows hold is there twice. *)
Theorem collect_two_windows (fuel : nat) self pair granularity date_from
    date_to price from_date to_date (n : Z) (L1 L2 : list Candle)
    (c1 c2 : Candle) (d1 d2 : datetime) (stop : bool) (w w1 w2 : World T) :
  checks self pair granularity date_from date_to price = Ok (from_date, to_date) ->
  calculate_candles_between (strftime from_date) (strftime to_date) granularity
  = Ok n ->
  CANDLE_COUNT < n + 1 <= 2 * CANDLE_COUNT ->
  fetch self pair (strftime from_date) None granularity CANDLE_COUNT price true
    (logged w (ProgressLine pair 0)) = (Ok L1, w1) ->
  last_candle L1 = Ok c1 ->
  parser_parse (time c1) = Ok d1 ->
  dt_ge d1 to_date = Ok false ->
  fetch self pair (strftime d1) None granularity (n + 1 - CANDLE_COUNT) price
    true (logged w1 (ProgressLine pair (Z.of_nat (List.length L1))))
  = (Ok L2, w2) ->
  last_candle (L1 ++ L2) = Ok c2 ->
  parser_parse (time c2) = Ok d2 ->
  dt_ge d2 to_date = Ok stop ->
  collect (S (S fuel)) self pair granularity date_from date_to price w
  = Some (Ok (Some (L1 ++ L2)%list), w2).
Proof.
  intros Hc Hn [Ht Ht2] F1 Hl1 Hd1 Hs1 F2 Hl2 Hd2 Hs2.
  rewrite (collect_long (S fuel) _ _ _ _ _ _ _ _ n w Hc Hn Ht).
  rewrite (loop_body_window self pair granularity price to_date _ w w1 L1)
    by (cbn [count Collector.from_date progress]; now rewrite Z.min_r by lia).
  cbn [candles app]. rewrite Hl1, Hd1, Hs1.
  unfold advanced. cbn [count candles progress app Collector.from_date].
  rewrite Z.min_r by lia.
  rewrite second_window by (unfold CANDLE_COUNT in *; lia).
  rewrite (loop_body_window self pair granularity price to_date _ w1 w2 L2)
    by (cbn [count Collector.from_date progress]; rewrite Z.min_l by lia;
        rewrite Z.add_0_l; exact F2).
  cbn [candles]. rewrite Hl2, Hd2, Hs2. destruct stop; reflexivity.
Qed.

(** The same range when the second call fails with one of the three
    exceptions of the program: the run ends with [TypeError] and the first
    window, already collected, is not returned. *)
Theorem collect_second_window_fails (fuel : nat) self pair granularity date_from
    date_to price from_date to_date (n : Z) (L1 : list Candle) (c1 : Candle)
    (d1 : datetime) (e : exn) (w w1 w2 : World T) :
  checks self pair granularity date_from date_to price = Ok (from_date, to_date) ->
  calculate_candles_between (strftime from_date) (strftime to_date) granularity
  = Ok n ->
  CANDLE_COUNT < n + 1 <= 2 * CANDLE_COUNT ->
  fetch self pair (strftime from_date) None granularity CANDLE_COUNT price true
    (logged w (ProgressLine pair 0)) = (Ok L1, w1) ->
  last_candle L1 = Ok c1 ->
  parser_parse (time c1) = Ok d1 ->
  dt_ge d1 to_date = Ok false ->
  fetch self pair (strftime d1) None granularity (n + 1 - CANDLE_COUNT) price
    true (logged w1 (ProgressLine pair (Z.of_nat (List.length L1))))
  = (Raise e, w2) ->
  handled e = true ->
  collect (S (S fuel)) self pair granularity date_from date_to price w
  = Some (Raise TypeError, logged w2 (line_of e)).
Proof.
  intros Hc Hn [Ht Ht2] F1 Hl1 Hd1 Hs1 F2 He.
  rewrite (collect_long (S fuel) _ _ _ _ _ _ _ _ n w Hc Hn Ht).
  rewrite (loop_body_window self pair granularity price to_date _ w w1 L1)
    by (cbn [count Collector.from_date progress]; now rewrite Z.min_r by lia).
  cbn [candles app]. rewrite Hl1, Hd1, Hs1.
  unfold advanced. cbn [count candles progress app Collector.from_date].
  rewrite Z.min_r by lia.
  rewrite second_window by (unfold CANDLE_COUNT in *; lia).
  rewrite (loop_body_failed T session_get parser_parse self pair granularity price
             to_date _ w1 (logged w2 (line_of e))); [reflexivity|].
  cbn [count Collector.from_date progress]. rewrite Z.min_l by lia.
  rewrite Z.add_0_l. now apply get_candles_handled.
Qed.

End Runs.

(** ** Which exceptions leave a run *)

Section RunRaises.

Variable T : Type.
Variable session_get : T -> Request -> pyresult Response * T.
Variable parser_parse : string -> pyresult datetime.

(** The parser raises none of the three exceptions of the program. *)
Hypothesis parser_foreign :
  forall s e, parser_parse s = Raise e -> handled e = false.

Lemma get_candles_raises self pair granularity price p_count start_date
    (w w' : World T) (e : exn) :
  get_candles session_get parser_parse self pair granularity price p_count
    start_date w = (Raise e, w') ->
  handled e = false.
Proof.
  rewrite get_candles_cases.
  destruct (fetch_candles _ _ _ _ _ _ _ _ _ _ w) as [[L|x] w1]; [discriminate|].
  destruct (handled x) eqn:H; [discriminate|]. now intros [= <- _].
Qed.

Lemma loop_body_raises self pair granularity price to_date st
    (w w' : World T) (e : exn) :
  loop_body session_get parser_parse self pair granularity price to_date st w
  = (Raise e, w') ->
  handled e = false.
Proof.
  unfold loop_body, bind, print, lift, ret.
  destruct (get_candles _ _ _ _ _ _ _ _ _) as [[r|x] w1] eqn:G.
  - destruct r as [L|]; cbn [extend]; [|now intros [= <- _]].
    destruct (last_candle (candles st ++ L)) as [c|x] eqn:C.
    + destruct (parser_parse (time c)) as [d|x] eqn:P.
      * destruct (dt_ge d to_date) as [[|]|x] eqn:D; try discriminate.
        intros [= <- _]. unfold dt_ge in D.
        destruct (tzinfo d), (tzinfo to_date); now inversion D.
      * intros [= <- _]. exact (parser_foreign _ _ P).
    + intros [= <- _]. unfold last_candle in C.
      destruct (rev (candles st ++ L)); now inversion C.
  - intros [= <- _]. exact (get_candles_raises _ _ _ _ _ _ _ _ _ G).
Qed.

Lemma while_loop_raises self pair granularity price to_date (fuel : nat) :
  forall st (w w' : World T) (e : exn),
    while_loop session_get parser_parse self pair granularity price to_date fuel
      st w = Some (Raise e, w') ->
    handled e = false.
Proof.
  induction fuel as [|fuel IH]; intros st w w' e.
  - rewrite while_loop_O. destruct (count st >? 0); discriminate.
  - rewrite while_loop_S. destruct (count st >? 0); [|discriminate].
    destruct (loop_body _ _ _ _ _ _ _ st w) as [[[st'|st']|x] w1] eqn:B.
    + apply IH.
    + discriminate.
    + intros [= <- _]. exact (loop_body_raises _ _ _ _ _ _ _ _ _ B).
Qed.

(** No [RequestError] and no [NullCandles] ever leaves a run, and an
    [InvalidFunctionArguments] that does comes from the run's own checks: it
    names ["collect_large_candle_data"] and the world is as it was.  What a
    window raises of the three is caught by [get_candles]. *)
Theorem collect_raises_own_checks_only (fuel : nat) self pair granularity
    date_from date_to price (w w' : World T) (e : exn) :
  collect_large_candle_data session_get parser_parse fuel self pair granularity
    date_from date_to price w = Some (Raise e, w') ->
  handled e = true ->
  w' = w /\
  exists a, e = InvalidFunctionArguments "collect_large_candle_data" a.
Proof.
  unfold collect_large_candle_data, collect_checks, not_in_instruments.
  destruct (instruments self) as [known|];
    [|intros [= <- _] H; discriminate H].
  destruct (negb (mem pair known)); [intros [= <- <-] _; eauto|].
  destruct (negb (mem granularity granularity_list));
    [intros [= <- <-] _; eauto|].
  destruct (parser_parse date_from) as [from_date|x] eqn:Pf.
  2:{ pose proof (parser_foreign _ _ Pf) as Hx.
      destruct x; intros [= <- <-] H; eauto; congruence. }
  destruct (parser_parse date_to) as [to_date|x] eqn:Pt.
  2:{ pose proof (parser_foreign _ _ Pt) as Hx.
      destruct x; intros [= <- <-] H; eauto; congruence. }
  destruct (negb (mem price price_list)); [intros [= <- <-] _; eauto|].
  destruct (calculate_candles_between _ _ _) as [n|x] eqn:Hn.
  2:{ apply calculate_candles_between_raises in Hn as ->. discriminate. }
  unfold collect_windows. destruct (n + 1 <=? CANDLE_COUNT).
  - unfold bind, lift, ret.
    destruct (get_candles _ _ _ _ _ _ _ _ w) as [[r|x] w1] eqn:G.
    + destruct r; cbn [extend]; [discriminate|].
      intros [= <- _] H. discriminate H.
    + intros [= <- _] H.
      rewrite (get_candles_raises _ _ _ _ _ _ _ _ _ G) in H. discriminate H.
  - destruct (while_loop _ _ _ _ _ _ _ fuel _ w) as [[[st|x] w1]|] eqn:L;
      try discriminate.
    intros [= <- _] H.
    rewrite (while_loop_raises _ _ _ _ _ _ _ _ _ _ L) in H. discriminate H.
Qed.

End RunRaises.

Lemma iso_parse_foreign (s : string) (e : exn) :
  iso_parse s = Raise e -> handled e = false.
Proof.
  unfold iso_parse.
  destruct (strptime s fmt_datetime); [discriminate|].
  destruct (strptime s fmt_date); [discriminate|]. now intros [= <-].
Qed.

(** A granularity the run does not know. *)
Lemma collect_raises_own_checks_only_witness :
  exists e w',
    collect_large_candle_data scripted iso_parse 0 collector "EUR_USD" "H9"
      "2020-01-01" "2020-01-02" "MBA" (fresh []) = Some (Raise e, w') /\
    handled e = true /\
    w' = fresh [] /\
    exists a, e = InvalidFunctionArguments "collect_large_candle_data" a.
Proof.
  exists (InvalidFunctionArguments "collect_large_candle_data" (ArgStr "H9")),
         (fresh []).
  split; [vm_compute; reflexivity|]. split; [reflexivity|].
  apply (collect_raises_own_checks_only (list Response) scripted iso_parse
           iso_parse_foreign 0 collector "EUR_USD" "H9" "2020-01-01"
           "2020-01-02" "MBA" (fresh []) (fresh [])
           (InvalidFunctionArguments "collect_large_candle_data" (ArgStr "H9"))).
  - vm_compute. reflexivity.
  - reflexivity.
Defined.

(** ** The count of a run reads the clock, not the instant *)

(** The count a run computes from its two parsed dates depends on their
    fields alone: the dates are written with [strftime] and a literal ["Z"],
    so the UTC offsets they carry play no part.  The run is refused when the
    reading of the end is not after the reading of the start, and also when
    one of the dates is before the year 1000, whose year [strftime] writes
    on fewer than the four digits [strptime] asks for. *)
Theorem collect_count_by_readings (d1 d2 : datetime) (granularity : string) :
  valid_datetime d1 = true -> valid_datetime d2 = true ->
  calculate_candles_between (strftime d1) (strftime d2) granularity
  = if (year d1 <? 1000) || (year d2 <? 1000) then Raise ValueError
    else if wall_seconds d2 <=? wall_seconds d1 then Raise ValueError
    else match delta_minutes granularity with
         | None => Raise ValueError
         | Some delta => Ok ((wall_seconds d2 - wall_seconds d1) / 60 / delta)
         end.
Proof.
  intros V1 V2. rewrite calculate_candles_between_strftime by assumption.
  destruct ((year d1 <? 1000) || (year d2 <? 1000)); [reflexivity|].
  destruct (wall_seconds d2 <=? wall_seconds d1) eqn:E; [reflexivity|].
  apply Z.leb_gt in E. now rewrite Z.quot_div_nonneg by lia.
Qed.

(** Midnight at UTC+5 and one o'clock at UTC-5 the same day are eleven hours
    apart; the count is that of one hour. *)
Lemma collect_count_by_readings_witness :
  instant (mkDatetime 2020 1 1 1 0 0 (Some (-18000)))
  - instant (mkDatetime 2020 1 1 0 0 0 (Some 18000)) = 11 * 3600 /\
  calculate_candles_between
    (strftime (mkDatetime 2020 1 1 0 0 0 (Some 18000)))
    (strftime (mkDatetime 2020 1 1 1 0 0 (Some (-18000)))) "H1"
  = Ok 1 /\
  strftime (mkDatetime 999 12 31 0 0 0 None) = "999-12-31T00:00:00Z" /\
  calculate_candles_between
    (strftime (mkDatetime 999 12 31 0 0 0 None))
    (strftime (mkDatetime 2020 1 1 0 0 0 None)) "D"
  = Raise ValueError.
Proof.
  split; [vm_compute; reflexivity|].
  split; [rewrite collect_count_by_readings; vm_compute; reflexivity|].
  split; [vm_compute; reflexivity|].
  rewrite collect_count_by_readings; vm_compute; reflexivity.
Defined.

(** ** Runs in the concrete environment, window by window *)

Lemma collect_short_returns_response_witness :
  exists w1,
    collect_large_candle_data scripted iso_parse 0 collector "EUR_USD" "H1"
      "2020-01-01T00:00:00Z" "2020-01-02T00:00:00Z" "MBA" (fresh [success []])
    = Some (Ok (Some []), w1).
Proof.
  eexists.
  apply (collect_short_returns_response (list Response) scripted iso_parse 0
           collector "EUR_USD" "H1" "2020-01-01T00:00:00Z" "2020-01-02T00:00:00Z"
           "MBA" (mkDatetime 2020 1 1 0 0 0 (Some 0))
           (mkDatetime 2020 1 2 0 0 0 (Some 0)) 24 []).
  - vm_compute; reflexivity.
  - vm_compute; reflexivity.
  - vm_compute; discriminate.
  - vm_compute; reflexivity.
Defined.

Lemma collect_empty_first_window_witness :
  exists w1,
    collect_large_candle_data scripted iso_parse 1 collector "EUR_USD" "H1"
      "2020-01-01T00:00:00Z" "2021-01-01T00:00:00Z" "MBA" (fresh [success []])
    = Some (Raise IndexError, w1).
Proof.
  eexists.
  apply (collect_empty_first_window (list Response) scripted iso_parse 0
           collector "EUR_USD" "H1" "2020-01-01T00:00:00Z" "2021-01-01T00:00:00Z"
           "MBA" (mkDatetime 2020 1 1 0 0 0 (Some 0))
           (mkDatetime 2021 1 1 0 0 0 (Some 0)) 8784).
  - vm_compute; reflexivity.
  - vm_compute; reflexivity.
  - vm_compute; reflexivity.
  - vm_compute; reflexivity.
Defined.

Lemma collect_early_exit_witness :
  exists w1,
    collect_large_candle_data scripted iso_parse 1 collector "EUR_USD" "H1"
      "2020-01-01T00:00:00Z" "2020-06-15T16:00:00Z" "MBA"
      (fresh [success [candle_at "2020-01-01T00:00:00Z";
                       candle_at "2020-06-20T00:00:00Z"]])
    = Some (Ok (Some [candle_at "2020-01-01T00:00:00Z";
                      candle_at "2020-06-20T00:00:00Z"]), w1).
Proof.
  eexists.
  apply (collect_early_exit (list Response) scripted iso_parse 0
           collector "EUR_USD" "H1" "2020-01-01T00:00:00Z" "2020-06-15T16:00:00Z"
           "MBA" (mkDatetime 2020 1 1 0 0 0 (Some 0))
           (mkDatetime 2020 6 15 16 0 0 (Some 0)) 4000 _
           (candle_at "2020-06-20T00:00:00Z")
           (mkDatetime 2020 6 20 0 0 0 (Some 0)));
    vm_compute; reflexivity.
Defined.

(** Dates given without a time are read as naive values, candle times with
    their ["Z"] as aware ones. *)
Lemma collect_naive_against_aware_witness :
  exists w1,
    collect_large_candle_data scripted iso_parse 1 collector "EUR_USD" "H1"
      "2020-01-01" "2021-01-01" "MBA"
      (fresh [success [candle_at "2020-01-01T00:00:00Z";
                       candle_at "2020-03-01T00:00:00Z"]])
    = Some (Raise TypeError, w1).
Proof.
  eexists.
  apply (collect_naive_against_aware (list Response) scripted iso_parse 0
           collector "EUR_USD" "H1" "2020-01-01" "2021-01-01"
           "MBA" (mkDatetime 2020 1 1 0 0 0 None)
           (mkDatetime 2021 1 1 0 0 0 None) 8784
           [candle_at "2020-01-01T00:00:00Z"; candle_at "2020-03-01T00:00:00Z"]
           (candle_at "2020-03-01T00:00:00Z")
           (mkDatetime 2020 3 1 0 0 0 (Some 0)));
    try (vm_compute; reflexivity).
  cbn [tzinfo]. split; [discriminate | intros H; now elim H].
Defined.

(** The candle of the first of March closes the first window and opens the
    second: the series holds it twice. *)
Lemma collect_two_windows_witness :
  exists w2,
    collect_large_candle_data scripted iso_parse 2 collector "EUR_USD" "H1"
      "2020-01-01T00:00:00Z" "2020-06-15T16:00:00Z" "MBA"
      (fresh [success [candle_at "2020-01-01T00:00:00Z";
                       candle_at "2020-03-01T00:00:00Z"];
              success [candle_at "2020-03-01T00:00:00Z";
                       candle_at "2020-03-01T01:00:00Z"]])
    = Some (Ok (Some [candle_at "2020-01-01T00:00:00Z";
                      candle_at "2020-03-01T00:00:00Z";
                      candle_at "2020-03-01T00:00:00Z";
                      candle_at "2020-03-01T01:00:00Z"]), w2).
Proof.
  eexists.
  eapply (collect_two_windows (list Response) scripted iso_parse 0
           collector "EUR_USD" "H1" "2020-01-01T00:00:00Z" "2020-06-15T16:00:00Z"
           "MBA" (mkDatetime 2020 1 1 0 0 0 (Some 0))
           (mkDatetime 2020 6 15 16 0 0 (Some 0)) 4000
           [candle_at "2020-01-01T00:00:00Z"; candle_at "2020-03-01T00:00:00Z"]
           [candle_at "2020-03-01T00:00:00Z"; candle_at "2020-03-01T01:00:00Z"]
           (candle_at "2020-03-01T00:00:00Z") (candle_at "2020-03-01T01:00:00Z")
           (mkDatetime 2020 3 1 0 0 0 (Some 0))
           (mkDatetime 2020 3 1 1 0 0 (Some 0)) false);
    try (vm_compute; reflexivity).
  vm_compute. split; [reflexivity | discriminate].
Defined.

Lemma collect_second_window_fails_witness :
  exists w2,
    collect_large_candle_data scripted iso_parse 2 collector "EUR_USD" "H1"
      "2020-01-01T00:00:00Z" "2020-06-15T16:00:00Z" "MBA"
      (fresh [success [candle_at "2020-01-01T00:00:00Z";
                       candle_at "2020-03-01T00:00:00Z"]])
    = Some (Raise TypeError, w2).
Proof.
  eexists.
  eapply (collect_second_window_fails (list Response) scripted iso_parse 0
           collector "EUR_USD" "H1" "2020-01-01T00:00:00Z" "2020-06-15T16:00:00Z"
           "MBA" (mkDatetime 2020 1 1 0 0 0 (Some 0))
           (mkDatetime 2020 6 15 16 0 0 (Some 0)) 4000
           [candle_at "2020-01-01T00:00:00Z"; candle_at "2020-03-01T00:00:00Z"]
           (candle_at "2020-03-01T00:00:00Z")
           (mkDatetime 2020 3 1 0 0 0 (Some 0)) (RequestError refusal));
    try (vm_compute; reflexivity).
  vm_compute. split; [reflexivity | discriminate].
Defined.

(** The requests and the calls of the run of two windows. *)
Lemma collect_requests_capped_witness :
  exists r w',
    collect_large_candle_data scripted iso_parse 2 collector "EUR_USD" "H1"
      "2020-01-01T00:00:00Z" "2020-06-15T16:00:00Z" "MBA"
      (fresh [success [candle_at "2020-01-01T00:00:00Z";
                       candle_at "2020-03-01T00:00:00Z"];
              success [candle_at "2020-03-01T00:00:00Z";
                       candle_at "2020-03-01T01:00:00Z"]])
    = Some (r, w') /\
    forallb request_by_count (sent w') = true /\
    forallb (window_call_ok "EUR_USD" "H1" "MBA") (calls w') = true.
Proof.
  destruct (collect_large_candle_data scripted iso_parse 2 collector "EUR_USD"
              "H1" "2020-01-01T00:00:00Z" "2020-06-15T16:00:00Z" "MBA"
              (fresh [success [candle_at "2020-01-01T00:00:00Z";
                               candle_at "2020-03-01T00:00:00Z"];
                      success [candle_at "2020-03-01T00:00:00Z";
                               candle_at "2020-03-01T01:00:00Z"]]))
    as [[r w']|] eqn:E; [|vm_compute in E; discriminate E].
  exists r, w'. split; [reflexivity|].
  destruct (collect_requests_capped _ _ _ _ _ _ _ _ _ _ _ _ _ E)
    as (cs & reqs & Hc & Hs & Hcs & Hreqs & _).
  cbn [calls sent fresh app] in Hc, Hs. rewrite Hc, Hs. split; assumption.
Defined.

Lemma collect_asks_within_count_witness :
  exists r w',
    collect_large_candle_data scripted iso_parse 2 collector "EUR_USD" "H1"
      "2020-01-01T00:00:00Z" "2020-06-15T16:00:00Z" "MBA"
      (fresh [success [candle_at "2020-01-01T00:00:00Z";
                       candle_at "2020-03-01T00:00:00Z"];
              success [candle_at "2020-03-01T00:00:00Z";
                       candle_at "2020-03-01T01:00:00Z"]])
    = Some (r, w') /\
    (calls w' = [] \/
     asked (calls w') <= 4001 /\ (List.length (calls w') <= 2)%nat).
Proof.
  destruct (collect_large_candle_data scripted iso_parse 2 collector "EUR_USD"
              "H1" "2020-01-01T00:00:00Z" "2020-06-15T16:00:00Z" "MBA"
              (fresh [success [candle_at "2020-01-01T00:00:00Z";
                               candle_at "2020-03-01T00:00:00Z"];
                      success [candle_at "2020-03-01T00:00:00Z";
                               candle_at "2020-03-01T01:00:00Z"]]))
    as [[r w']|] eqn:E; [|vm_compute in E; discriminate E].
  exists r, w'. split; [reflexivity|].
  destruct (collect_asks_within_count _ _ _ _ _ _ _ _ _ _ _ _ _ E)
    as [Hn | (from_date & to_date & n & cs & Hc & Hn & Hcs & Ha & Hl)].
  - left. exact Hn.
  - right. vm_compute in Hc. injection Hc as <- <-.
    vm_compute in Hn. injection Hn as <-.
    cbn [calls fresh app] in Hcs. rewrite Hcs. split; [exact Ha | exact Hl].
Defined.

(** ** The instrument list *)

(** [get_instruments_names] gives [None] exactly for the empty list, and
    otherwise the names in the order of the list, one per instrument: it
    never gives an empty list of names. *)
Theorem get_instruments_names_spec (tradeable_instruments : list Instrument) :
  (get_instruments_names tradeable_instruments = None
   <-> tradeable_instruments = []) /\
  (forall names,
     get_instruments_names tradeable_instruments = Some names ->
     names = map name tradeable_instruments /\ names <> [] /\
     List.length names = List.length tradeable_instruments).
Proof.
  unfold get_instruments_names.
  destruct tradeable_instruments as [|i l]; cbn [List.length Nat.ltb Nat.leb].
  - split; [tauto | discriminate].
  - split; [split; discriminate|].
    intros names [= <-]. cbn [map]. repeat split; [discriminate|].
    cbn [List.length]. now rewrite length_map.
Qed.

Section Construction.

Variable T : Type.
Variable instruments_get : T -> string -> pyresult InstrumentsBody * T.
Variable request_exception : exn -> bool.
Variable S : Type.
Variable session_get : S -> Request -> pyresult Response * S.
Variable parser_parse : string -> pyresult datetime.

(** An answer of the account endpoint without ["instruments"], or with an
    empty list, raises nothing: the collector is built, without an
    instrument list, and from then on every call of [fetch_candles] ends
    with [TypeError] before any request. *)
Theorem init_without_instruments account_id oanda_url (s s' : T)
    (body : InstrumentsBody) :
  instruments_get s (oanda_url ++ "/accounts/" ++ account_id ++ "/instruments")
  = (Ok body, s') ->
  json_instruments body = None \/ json_instruments body = Some [] ->
  exists self,
    init instruments_get request_exception account_id oanda_url s
    = (Built self, s') /\
    instruments self = None /\
    forall pair_name start end_ granularity count price use_count (w : World S),
      fetch_candles session_get parser_parse self pair_name start end_
        granularity count price use_count w
      = (Raise TypeError,
         entered w (mkFetchCall pair_name start end_ granularity count price
                      use_count)).
Proof.
  intros Hg Hb.
  exists (mkDataCollector oanda_url None).
  unfold init, get_tradeable_instruments. rewrite Hg.
  split; [destruct Hb as [-> | ->]; reflexivity|].
  split; [reflexivity|]. intros. reflexivity.
Qed.

(** An answer that lists instruments: the collector knows exactly their
    names, and [fetch_candles] refuses any other pair with
    [InvalidFunctionArguments], sending nothing. *)
Theorem init_known_pairs account_id oanda_url (s s' : T)
    (listed : list Instrument) :
  instruments_get s (oanda_url ++ "/accounts/" ++ account_id ++ "/instruments")
  = (Ok (mkInstrumentsBody (Some listed)), s') ->
  listed <> [] ->
  exists self,
    init instruments_get request_exception account_id oanda_url s
    = (Built self, s') /\
    instruments self = Some (map name listed) /\
    forall pair_name start end_ granularity count price use_count (w : World S),
      (forall i, In i listed -> name i <> pair_name) ->
      fetch_candles session_get parser_parse self pair_name start end_
        granularity count price use_count w
      = (Raise (InvalidFunctionArguments "fetch_candles" (ArgStr pair_name)),
         entered w (mkFetchCall pair_name start end_ granularity count price
                      use_count)).
Proof.
  intros Hg Hl.
  exists (mkDataCollector oanda_url (Some (map name listed))).
  unfold init, get_tradeable_instruments. rewrite Hg. cbn [json_instruments].
  assert (E : get_instruments_names listed = Some (map name listed)).
  { unfold get_instruments_names. destruct listed; [contradiction | reflexivity]. }
  rewrite E. split; [reflexivity|]. split; [reflexivity|].
  intros pair_name start end_ granularity count price use_count w Hn.
  assert (Hm : mem pair_name (map name listed) = false).
  { apply mem_not_In. intros Hin. apply in_map_iff in Hin as (i & Hi & Hin).
    exact (Hn i Hin Hi). }
  unfold fetch_candles, bind, called, lift, not_in_instruments.
  cbn [instruments]. rewrite Hm. reflexivity.
Qed.

End Construction.

(** A body with an error message and no ["instruments"]. *)
Lemma init_without_instruments_witness :
  exists self,
    init (account (mkInstrumentsBody None)) of_requests "101-001" "https://host/v3" tt
    = (Built self, tt) /\
    fst (fetch_candles scripted iso_parse self "EUR_USD" "2020-01-01" None "H1"
           10 "MBA" true (fresh []))
    = Raise TypeError.
Proof.
  destruct (init_without_instruments unit (account (mkInstrumentsBody None))
              of_requests (list Response) scripted iso_parse "101-001"
              "https://host/v3" tt tt (mkInstrumentsBody None))
    as (self & Hi & _ & Hf).
  - reflexivity.
  - now left.
  - exists self. split; [exact Hi | now rewrite Hf].
Defined.

Lemma init_known_pairs_witness :
  exists self,
    init (account (mkInstrumentsBody
                     (Some [mkInstrument "EUR_USD" "EUR/USD";
                            mkInstrument "USD_JPY" "USD/JPY"])))
      of_requests "101-001" "https://host/v3" tt
    = (Built self, tt) /\
    instruments self = Some ["EUR_USD"; "USD_JPY"] /\
    fst (fetch_candles scripted iso_parse self "GBP_USD" "2020-01-01" None "H1"
           10 "MBA" true (fresh []))
    = Raise (InvalidFunctionArguments "fetch_candles" (ArgStr "GBP_USD")).
Proof.
  destruct (init_known_pairs unit
              (account (mkInstrumentsBody
                          (Some [mkInstrument "EUR_USD" "EUR/USD";
                                 mkInstrument "USD_JPY" "USD/JPY"])))
              of_requests (list Response) scripted iso_parse "101-001"
              "https://host/v3" tt tt
              [mkInstrument "EUR_USD" "EUR/USD"; mkInstrument "USD_JPY" "USD/JPY"])
    as (self & Hi & Hn & Hf).
  - reflexivity.
  - discriminate.
  - exists self. split; [exact Hi|]. split; [exact Hn|].
    rewrite Hf; [reflexivity|].
    intros i [<- | [<- | []]]; discriminate.
Defined.
